(** * ATAG One thermostat client for Homey: model and verified properties

    The development embeds [lib/AtagOneApi.ts] (the local HTTP client) and the
    device class [AtagOneDevice] (poller, flow cards, boost timer) and proves
    the properties stated about them.

    Modelling conventions.
    - A JavaScript [number] that carries a temperature or a pressure is an
      exact rational ([Q]).  The arithmetic the client performs on them
      (doubling, halving, [Math.round], [Math.min], [Math.max]) is exact on
      IEEE doubles over the range of use, so no rounding error is hidden.
      [===] on such numbers is [Qeq_bool].  The unit conversions of the
      device (bar to millibar, seconds and minutes to milliseconds) are
      products that a double may round in its last place; the model keeps
      the rational product, which is the double's value when the factor is
      a whole number, and the properties of the pressure capability and of
      the boost timer do not state the product.
    - A number that is a status code, a bit mask or a counter is an integer
      ([Z]); the 32-bit coercion done by [&] is written out ([ToInt32]).
    - Strings are [string] (ASCII text).
    - An optional field ([x?: T], possibly [undefined]) is an [option].
    - A thrown [Error(msg)] is [Err msg]; [async] methods are programs in a
      small interaction monad whose visible actions are the HTTP requests,
      the sleeps, the callbacks and the flow-card triggers.
    - The thermostat is a stream of answers, one per request; a transport
      failure is an answer [Err msg].
    - Calls into the host platform ([setCapabilityValue], [trigger],
      [setAvailable], ...) always resolve.  Timers are the platform's table
      of pending handles, and a pending timeout may elapse at any time.
    - In [AtagOneDevice.step] a handler of the device runs to completion
      before the next one starts.  The duration action and its timeout
      callback, whose effect depends on what runs while they wait, are also
      given cut at their awaits ([Interleaving]), with the device shared
      between the suspended handlers. *)

From Stdlib Require Import ZArith QArith Qround Qminmax Lia Lqa Ascii String.
From stdpp Require Import gmap strings.

Local Open Scope Z_scope.

(** ** Results of fallible code *)

Inductive result (A : Type) : Type :=
| Ok (a : A)
| Err (msg : string).
Arguments Ok {A} a.
Arguments Err {A} msg.

Definition is_ok {A} (r : result A) : bool :=
  match r with Ok _ => true | Err _ => false end.

(** ** Wire format (interfaces of [AtagOneApi.ts]) *)

Module AuthStatus.
Definition NOT_AVAILABLE : Z := 0.
Definition PENDING : Z := 1.
Definition GRANTED : Z := 2.
Definition DENIED : Z := 3.
End AuthStatus.

Module MessageInfo.
Definition CONTROL : Z := 1.
Definition SCHEDULES : Z := 2.
Definition CONFIGURATION : Z := 4.
Definition REPORT : Z := 8.
Definition STATUS : Z := 16.
Definition WIFI : Z := 32.
Definition DETAILS : Z := 64.
End MessageInfo.

Record AccountAuth := {
  user_account : string;
  mac_address : string }.

Record AccountEntry := {
  entry_user_account : string;
  entry_mac_address : string;
  entry_device_name : string;
  account_type : Z }.

(** The three request envelopes. *)
Inductive Message :=
| pair_message (seqnr : Z) (account_auth : AccountAuth) (entries : list AccountEntry)
| retrieve_message (seqnr : Z) (account_auth : AccountAuth) (info : Z)
| update_message (seqnr : Z) (account_auth : AccountAuth) (control_ch_mode_temp : Q).

(** Reply blocks; only the fields the client reads are kept. *)
Record StatusBlock := { device_id : option string }.

Record ReportBlock := {
  room_temp : option Q;
  outside_temp : option Q;
  ch_water_pres : option Q;
  boiler_status : option Z }.

Record ControlBlock := { ch_mode_temp : option Q }.

Record RetrieveReply := {
  status : option StatusBlock;
  report : option ReportBlock;
  control : option ControlBlock;
  retrieve_acc_status : option Z }.

Record PairReply := { pair_acc_status : option Z }.

Record UpdateReply := { update_acc_status : option Z }.

(** [JSON.parse(body) as T] is an unchecked cast: a decoded body is one
    object in which each top-level reply key may or may not be present. *)
Record Response := {
  pair_reply : option PairReply;
  retrieve_reply : option RetrieveReply;
  update_reply : option UpdateReply }.

Record ThermostatData := {
  deviceId : option string;
  roomTemperature : option Q;
  targetTemperature : option Q;
  outsideTemperature : option Q;
  waterPressure : option Q;
  boilerHeating : option bool;
  hotWaterActive : option bool;
  flameOn : option bool }.

Record ConnectionSettings := {
  ipAddress : string;
  macAddress : string;
  deviceName : string;
  email : string }.

(** [Partial<ConnectionSettings>] *)
Record PartialSettings := {
  p_ipAddress : option string;
  p_macAddress : option string;
  p_deviceName : option string;
  p_email : option string }.

(** ** Flow cards fired by the device *)

Inductive FlowTrigger :=
| temperature_changed (temperature : Q)
| target_temperature_changed (temperature : Q)
| pressure_changed (pressure : Q)
| pressure_too_low (token_pressure state_pressure : Q)
| boiler_started
| boiler_stopped.

(** ** Interaction monad *)

Inductive Effect :=
| Sleep (ms : Z)
| OnStatus (status : Z)
| Trigger (card : FlowTrigger).

Inductive io (A : Type) : Type :=
| Ret (a : A)
| Request (host path : string) (body : Message) (k : result Response -> io A)
| Perform (e : Effect) (k : io A).
Arguments Ret {A} a.
Arguments Request {A} host path body k.
Arguments Perform {A} e k.

Fixpoint io_bind {A B} (m : io A) (f : A -> io B) : io B :=
  match m with
  | Ret a => f a
  | Request h p b k => Request h p b (fun r => io_bind (k r) f)
  | Perform e k => Perform e (io_bind k f)
  end.

(** A method of an object with fields [S]: it may mutate the fields, act on
    the outside world, and return or throw.  Mutations made before a throw
    stay, as in JavaScript. *)
Definition prog (S A : Type) : Type := S -> io (result A * S).

Global Instance prog_ret {S} : MRet (prog S) :=
  fun A a s => Ret (Ok a, s).

Global Instance prog_bind {S} : MBind (prog S) :=
  fun A B f m s =>
    io_bind (m s) (fun rs =>
      match rs with
      | (Ok a, s') => f a s'
      | (Err e, s') => Ret (Err e, s')
      end).

Definition get {S} : prog S S := fun s => Ret (Ok s, s).
Definition modify {S} (f : S -> S) : prog S unit := fun s => Ret (Ok tt, f s).
Definition throw {S A} (msg : string) : prog S A := fun s => Ret (Err msg, s).
Definition perform {S} (e : Effect) : prog S unit :=
  fun s => Perform e (Ret (Ok tt, s)).

(** [try { body } catch (error) { handler }] *)
Definition try_catch {S A} (body : prog S A) (handler : string -> prog S A) : prog S A :=
  fun s =>
    io_bind (body s) (fun rs =>
      match rs with
      | (Ok a, s') => Ret (Ok a, s')
      | (Err e, s') => handler e s'
      end).

(** What an observer on the network and on the host platform sees. *)
Inductive Event :=
| Sent (host path : string) (body : Message)
| Did (e : Effect).

(** The thermostat: its answer to the next request, the one after, ... *)
Definition Network := nat -> result Response.

Definition next (net : Network) : Network := fun i => net (S i).

Fixpoint run {A} (m : io A) (net : Network) : list Event * A * Network :=
  match m with
  | Ret a => ([], a, net)
  | Request h p b k =>
      let '(t, a, net') := run (k (net O)) (next net) in
      (Sent h p b :: t, a, net')
  | Perform e k =>
      let '(t, a, net') := run k net in
      (Did e :: t, a, net')
  end.

Definition trace_of {A} (x : list Event * A * Network) : list Event := x.1.1.
Definition value_of {A} (x : list Event * A * Network) : A := x.1.2.

(** ** AtagOneApi *)

Module AtagOneApi.

Definition PORT : Z := 10000.
Definition TIMEOUT : Z := 10000.
Definition MIN_TEMP : Q := 4%Q.
Definition MAX_TEMP : Q := 27%Q.

Definition AuthorizationDenied : string :=
  "Authorization denied. Please re-pair the device.".
Definition AuthorizationPending : string :=
  "Authorization pending. Please approve on thermostat.".
Definition AuthorizationTimeout : string := "Authorization timeout".
Definition InvalidPairResponse : string := "Invalid pair response".
Definition InvalidRetrieveResponse : string := "Invalid retrieve response".

(** [String.prototype.toUpperCase] on ASCII text *)
Definition upper_ascii (c : ascii) : ascii :=
  let n := nat_of_ascii c in
  if ((97 <=? n) && (n <=? 122))%nat then ascii_of_nat (n - 32) else c.

Fixpoint toUpperCase (s : string) : string :=
  match s with
  | EmptyString => EmptyString
  | String c r => String (upper_ascii c) (toUpperCase r)
  end.

(** [s.replace(/[:-]/g, '')] *)
Definition is_separator (c : ascii) : bool :=
  (Ascii.eqb c ":" || Ascii.eqb c "-")%char.

Fixpoint strip_separators (s : string) : string :=
  match s with
  | EmptyString => EmptyString
  | String c r =>
      if is_separator c then strip_separators r
      else String c (strip_separators r)
  end.

Definition normalizeMacAddress (mac : string) : string :=
  toUpperCase (strip_separators mac).

Definition constructor (settings : ConnectionSettings) : ConnectionSettings :=
  {| ipAddress := ipAddress settings;
     macAddress := normalizeMacAddress (macAddress settings);
     deviceName := deviceName settings;
     email := email settings |}.

(** [if (settings.f)]: a string is truthy when present and non-empty. *)
Definition truthy (o : option string) : bool :=
  match o with
  | Some s => negb (String.eqb s "")
  | None => false
  end.

Definition updateSettings (settings : PartialSettings) (this : ConnectionSettings)
  : ConnectionSettings :=
  let this :=
    if truthy (p_ipAddress settings)
    then {| ipAddress := default "" (p_ipAddress settings);
            macAddress := macAddress this;
            deviceName := deviceName this;
            email := email this |}
    else this in
  let this :=
    if truthy (p_macAddress settings)
    then {| ipAddress := ipAddress this;
            macAddress := normalizeMacAddress (default "" (p_macAddress settings));
            deviceName := deviceName this;
            email := email this |}
    else this in
  let this :=
    if truthy (p_deviceName settings)
    then {| ipAddress := ipAddress this;
            macAddress := macAddress this;
            deviceName := default "" (p_deviceName settings);
            email := email this |}
    else this in
  if truthy (p_email settings)
  then {| ipAddress := ipAddress this;
          macAddress := macAddress this;
          deviceName := deviceName this;
          email := default "" (p_email settings) |}
  else this.

(** One POST to [this.ipAddress]; a transport failure (connection error,
    timeout, unparsable body) rejects with the network's error. *)
Definition request (path : string) (data : Message)
  : prog ConnectionSettings Response :=
  fun this => Request (ipAddress this) path data (fun r => Ret (r, this)).

Definition auth_of (this : ConnectionSettings) : AccountAuth :=
  {| user_account := email this; mac_address := macAddress this |}.

Definition pair : prog ConnectionSettings Z :=
  this ← get;
  let pairMessage :=
    pair_message 1 (auth_of this)
      [ {| entry_user_account := email this;
           entry_mac_address := macAddress this;
           entry_device_name := deviceName this;
           account_type := 0 |} ] in
  response ← request "/pair_message" pairMessage;
  match pair_reply response ≫= pair_acc_status with
  | Some acc_status => mret acc_status
  | None => throw InvalidPairResponse
  end.

(** The body of the [for] loop, [remaining] iterations left. *)
Fixpoint waitLoop (remaining : nat) (intervalMs : Z) (onStatus : bool)
  : prog ConnectionSettings Z :=
  match remaining with
  | O => throw AuthorizationTimeout
  | S n =>
      status ← pair;
      (if onStatus then perform (OnStatus status) else mret tt);;
      if status =? AuthStatus.GRANTED then mret status
      else if status =? AuthStatus.DENIED then mret status
      else perform (Sleep intervalMs);; waitLoop n intervalMs onStatus
  end.

(** [for (attempt = 0; attempt < maxAttempts; attempt++)] runs
    [max 0 maxAttempts] times; the defaults are 30 attempts, 2000 ms;
    [onStatus] tells whether the optional callback was passed. *)
Definition waitForAuthorization (maxAttempts : option Z) (intervalMs : option Z)
    (onStatus : bool) : prog ConnectionSettings Z :=
  waitLoop (Z.to_nat (default 30 maxAttempts)) (default 2000 intervalMs) onStatus.

Definition retrieve (infoFlags : option Z) : prog ConnectionSettings Response :=
  this ← get;
  let infoFlags :=
    default (Z.lor MessageInfo.CONTROL MessageInfo.REPORT) infoFlags in
  request "/retrieve" (retrieve_message 1 (auth_of this) infoFlags).

(** [ToInt32], the coercion applied to the operands of [&]. *)
Definition ToInt32 (z : Z) : Z := (z + 2 ^ 31) mod 2 ^ 32 - 2 ^ 31.

Definition bitand (a b : Z) : Z := Z.land (ToInt32 a) (ToInt32 b).

Definition getData : prog ConnectionSettings ThermostatData :=
  response ← retrieve
    (Some (Z.lor (Z.lor MessageInfo.CONTROL MessageInfo.REPORT) MessageInfo.STATUS));
  match retrieve_reply response with
  | None => throw InvalidRetrieveResponse
  | Some reply =>
      if bool_decide (retrieve_acc_status reply = Some AuthStatus.DENIED)
      then throw AuthorizationDenied
      else if bool_decide (retrieve_acc_status reply = Some AuthStatus.PENDING)
      then throw AuthorizationPending
      else
        let boilerStatus := default 0 (report reply ≫= boiler_status) in
        mret {| deviceId := status reply ≫= device_id;
                roomTemperature := report reply ≫= room_temp;
                targetTemperature := control reply ≫= ch_mode_temp;
                outsideTemperature := report reply ≫= outside_temp;
                waterPressure := report reply ≫= ch_water_pres;
                boilerHeating := Some (negb (bitand boilerStatus 8 =? 0));
                hotWaterActive := Some (negb (bitand boilerStatus 4 =? 0));
                flameOn := Some (negb (bitand boilerStatus 8 =? 0)
                                 || negb (bitand boilerStatus 4 =? 0)) |}
  end.

(** [Math.round]: nearest integer, ties towards +infinity. *)
Definition Math_round (x : Q) : Z := Qfloor (x + (1 # 2)).

(** The two assignments to [temp]. *)
Definition clampAndRound (temperature : Q) : Q :=
  let temp := (inject_Z (Math_round (temperature * 2)) / 2)%Q in
  Qmax MIN_TEMP (Qmin MAX_TEMP temp).

Definition setTargetTemperature (temperature : Q) : prog ConnectionSettings unit :=
  this ← get;
  let temp := clampAndRound temperature in
  response ← request "/update" (update_message 1 (auth_of this) temp);
  if bool_decide (update_reply response ≫= update_acc_status = Some AuthStatus.DENIED)
  then throw AuthorizationDenied
  else if bool_decide (update_reply response ≫= update_acc_status = Some AuthStatus.PENDING)
  then throw AuthorizationPending
  else mret tt.

Definition testConnection : prog ConnectionSettings bool :=
  try_catch (retrieve (Some MessageInfo.STATUS);; mret true)
            (fun _ => mret false).

End AtagOneApi.

(** ** AtagOneDevice *)

Module AtagOneDevice.

(** A capability value held by the host platform; [getCapabilityValue]
    answers [null] for a capability that was never set. *)
Inductive capval :=
| CapNull
| CapNum (q : Q)
| CapBool (b : bool).

(** Numeric coercion of a value used in arithmetic ([null * 2] is [0]). *)
Definition to_number (v : capval) : Q :=
  match v with
  | CapNull => 0%Q
  | CapNum q => q
  | CapBool b => if b then 1%Q else 0%Q
  end.

(** The private fields of the class, followed by the part of the host
    platform's state that belongs to this device: the capability store, the
    availability flag with its message, and the timer table (handles of
    pending [setTimeout]s and of running [setInterval]s, with their delay
    in milliseconds). *)
Record Device := {
  api : ConnectionSettings;
  pollInterval : option nat;
  boostTimeout : option nat;
  previousTemperature : option capval;
  prevRoomTemp : option Q;
  prevTargetTemp : option Q;
  prevPressure : option Q;
  prevBoilerHeating : option bool;
  capabilities : gmap string capval;
  available : bool;
  unavailableMessage : option string;
  timeouts : gmap nat Q;
  intervals : gmap nat Q;
  next_handle : nat }.

Definition with_api (v : ConnectionSettings) (d : Device) : Device :=
  Build_Device v (pollInterval d) (boostTimeout d) (previousTemperature d)
    (prevRoomTemp d) (prevTargetTemp d) (prevPressure d) (prevBoilerHeating d)
    (capabilities d) (available d) (unavailableMessage d)
    (timeouts d) (intervals d) (next_handle d).

Definition with_pollInterval (v : option nat) (d : Device) : Device :=
  Build_Device (api d) v (boostTimeout d) (previousTemperature d)
    (prevRoomTemp d) (prevTargetTemp d) (prevPressure d) (prevBoilerHeating d)
    (capabilities d) (available d) (unavailableMessage d)
    (timeouts d) (intervals d) (next_handle d).

Definition with_boostTimeout (v : option nat) (d : Device) : Device :=
  Build_Device (api d) (pollInterval d) v (previousTemperature d)
    (prevRoomTemp d) (prevTargetTemp d) (prevPressure d) (prevBoilerHeating d)
    (capabilities d) (available d) (unavailableMessage d)
    (timeouts d) (intervals d) (next_handle d).

Definition with_previousTemperature (v : option capval) (d : Device) : Device :=
  Build_Device (api d) (pollInterval d) (boostTimeout d) v
    (prevRoomTemp d) (prevTargetTemp d) (prevPressure d) (prevBoilerHeating d)
    (capabilities d) (available d) (unavailableMessage d)
    (timeouts d) (intervals d) (next_handle d).

Definition with_prevRoomTemp (v : option Q) (d : Device) : Device :=
  Build_Device (api d) (pollInterval d) (boostTimeout d) (previousTemperature d)
    v (prevTargetTemp d) (prevPressure d) (prevBoilerHeating d)
    (capabilities d) (available d) (unavailableMessage d)
    (timeouts d) (intervals d) (next_handle d).

Definition with_prevTargetTemp (v : option Q) (d : Device) : Device :=
  Build_Device (api d) (pollInterval d) (boostTimeout d) (previousTemperature d)
    (prevRoomTemp d) v (prevPressure d) (prevBoilerHeating d)
    (capabilities d) (available d) (unavailableMessage d)
    (timeouts d) (intervals d) (next_handle d).

Definition with_prevPressure (v : option Q) (d : Device) : Device :=
  Build_Device (api d) (pollInterval d) (boostTimeout d) (previousTemperature d)
    (prevRoomTemp d) (prevTargetTemp d) v (prevBoilerHeating d)
    (capabilities d) (available d) (unavailableMessage d)
    (timeouts d) (intervals d) (next_handle d).

Definition with_prevBoilerHeating (v : option bool) (d : Device) : Device :=
  Build_Device (api d) (pollInterval d) (boostTimeout d) (previousTemperature d)
    (prevRoomTemp d) (prevTargetTemp d) (prevPressure d) v
    (capabilities d) (available d) (unavailableMessage d)
    (timeouts d) (intervals d) (next_handle d).

Definition with_capabilities (v : gmap string capval) (d : Device) : Device :=
  Build_Device (api d) (pollInterval d) (boostTimeout d) (previousTemperature d)
    (prevRoomTemp d) (prevTargetTemp d) (prevPressure d) (prevBoilerHeating d)
    v (available d) (unavailableMessage d)
    (timeouts d) (intervals d) (next_handle d).

Definition with_availability (a : bool) (msg : option string) (d : Device) : Device :=
  Build_Device (api d) (pollInterval d) (boostTimeout d) (previousTemperature d)
    (prevRoomTemp d) (prevTargetTemp d) (prevPressure d) (prevBoilerHeating d)
    (capabilities d) a msg
    (timeouts d) (intervals d) (next_handle d).

Definition with_timers (t i : gmap nat Q) (n : nat) (d : Device) : Device :=
  Build_Device (api d) (pollInterval d) (boostTimeout d) (previousTemperature d)
    (prevRoomTemp d) (prevTargetTemp d) (prevPressure d) (prevBoilerHeating d)
    (capabilities d) (available d) (unavailableMessage d)
    t i n.

(** *** Host platform operations *)

Definition call_api {A} (m : prog ConnectionSettings A) : prog Device A :=
  fun this =>
    io_bind (m (api this)) (fun rs => Ret (rs.1, with_api rs.2 this)).

Definition getCapabilityValue (name : string) : prog Device capval :=
  this ← get; mret (default CapNull (capabilities this !! name)).

Definition setCapabilityValue (name : string) (v : capval) : prog Device unit :=
  modify (fun this => with_capabilities (<[name := v]> (capabilities this)) this).

Definition getAvailable : prog Device bool :=
  this ← get; mret (available this).

Definition setAvailable : prog Device unit :=
  modify (with_availability true None).

Definition setUnavailable (msg : string) : prog Device unit :=
  modify (with_availability false (Some msg)).

Definition trigger (card : FlowTrigger) : prog Device unit :=
  perform (Trigger card).

Definition setTimeout (delay : Q) : prog Device nat :=
  this ← get;
  let h := next_handle this in
  modify (with_timers (<[h := delay]> (timeouts this)) (intervals this) (S h));;
  mret h.

Definition clearTimeout (h : nat) : prog Device unit :=
  modify (fun this =>
    with_timers (delete h (timeouts this)) (intervals this) (next_handle this) this).

Definition setInterval (delay : Q) : prog Device nat :=
  this ← get;
  let h := next_handle this in
  modify (with_timers (timeouts this) (<[h := delay]> (intervals this)) (S h));;
  mret h.

Definition clearInterval (h : nat) : prog Device unit :=
  modify (fun this =>
    with_timers (timeouts this) (delete h (intervals this)) (next_handle this) this).

Definition when {S} (b : bool) (m : prog S unit) : prog S unit :=
  if b then m else mret tt.

(** [prev !== undefined && prev !== value] *)
Definition differsQ (prev : option Q) (value : Q) : bool :=
  match prev with
  | Some p => negb (Qeq_bool p value)
  | None => false
  end.

Definition differsB (prev : option bool) (value : bool) : bool :=
  match prev with
  | Some p => negb (eqb p value)
  | None => false
  end.

(** The run listener of the [pressure_too_low] card. *)
Definition pressureTooLow_runListener (threshold state_pressure : Q) : bool :=
  if Qlt_le_dec state_pressure threshold then true else false.

(** *** Methods *)

Definition updateCapabilitiesAndTriggerFlows (data : ThermostatData)
  : prog Device unit :=
  match roomTemperature data with
  | Some roomTemperature =>
      setCapabilityValue "measure_temperature" (CapNum roomTemperature);;
      this ← get;
      when (differsQ (prevRoomTemp this) roomTemperature)
        (trigger (temperature_changed roomTemperature));;
      modify (with_prevRoomTemp (Some roomTemperature))
  | None => mret tt
  end;;
  match targetTemperature data with
  | Some targetTemperature =>
      setCapabilityValue "target_temperature" (CapNum targetTemperature);;
      this ← get;
      when (differsQ (prevTargetTemp this) targetTemperature)
        (trigger (target_temperature_changed targetTemperature));;
      modify (with_prevTargetTemp (Some targetTemperature))
  | None => mret tt
  end;;
  match waterPressure data with
  | Some waterPressure =>
      let pressureMbar := (waterPressure * 1000)%Q in
      setCapabilityValue "measure_pressure" (CapNum pressureMbar);;
      this ← get;
      when (differsQ (prevPressure this) waterPressure)
        (trigger (pressure_changed waterPressure);;
         trigger (pressure_too_low waterPressure waterPressure));;
      modify (with_prevPressure (Some waterPressure))
  | None => mret tt
  end;;
  match boilerHeating data with
  | Some boilerHeating =>
      setCapabilityValue "alarm_generic.boiler" (CapBool boilerHeating);;
      this ← get;
      when (differsB (prevBoilerHeating this) boilerHeating)
        (if boilerHeating then trigger boiler_started else trigger boiler_stopped);;
      modify (with_prevBoilerHeating (Some boilerHeating))
  | None => mret tt
  end.

Definition pollData : prog Device unit :=
  try_catch
    (data ← call_api AtagOneApi.getData;
     updateCapabilitiesAndTriggerFlows data;;
     isAvailable ← getAvailable;
     when (negb isAvailable) setAvailable)
    (fun error => setUnavailable "Connection failed").

Definition stopPolling : prog Device unit :=
  this ← get;
  match pollInterval this with
  | Some h => clearInterval h;; modify (with_pollInterval None)
  | None => mret tt
  end.

Definition startPolling (intervalSeconds : Q) : prog Device unit :=
  stopPolling;;
  let intervalMs := (intervalSeconds * 1000)%Q in
  h ← setInterval intervalMs;
  modify (with_pollInterval (Some h)).

(** Run listener of the [set_temperature] action card. *)
Definition setTemperatureAction (temperature : Q) : prog Device unit :=
  call_api (AtagOneApi.setTargetTemperature temperature);;
  setCapabilityValue "target_temperature" (CapNum temperature).

(** The callback handed to [setTimeout] by the duration action. *)
Definition boostCallback : prog Device unit :=
  this ← get;
  match previousTemperature this with
  | Some previous =>
      call_api (AtagOneApi.setTargetTemperature (to_number previous));;
      setCapabilityValue "target_temperature" previous
  | None => mret tt
  end.

(** Run listener of the [set_temperature_duration] action card. *)
Definition setTemperatureDurationAction (temperature duration : Q)
  : prog Device unit :=
  previous ← getCapabilityValue "target_temperature";
  modify (with_previousTemperature (Some previous));;
  call_api (AtagOneApi.setTargetTemperature temperature);;
  setCapabilityValue "target_temperature" (CapNum temperature);;
  this ← get;
  match boostTimeout this with
  | Some h => clearTimeout h
  | None => mret tt
  end;;
  let durationMs := (duration * 60 * 1000)%Q in
  h ← setTimeout durationMs;
  modify (with_boostTimeout (Some h)).

Definition onDeleted : prog Device unit :=
  stopPolling;;
  this ← get;
  match boostTimeout this with
  | Some h => clearTimeout h
  | None => mret tt
  end.

(** The object right after construction: no field assigned yet. *)
Definition fresh (settings : ConnectionSettings) (store : gmap string capval) : Device :=
  {| api := AtagOneApi.constructor settings;
     pollInterval := None;
     boostTimeout := None;
     previousTemperature := None;
     prevRoomTemp := None;
     prevTargetTemp := None;
     prevPressure := None;
     prevBoilerHeating := None;
     capabilities := store;
     available := true;
     unavailableMessage := None;
     timeouts := ∅;
     intervals := ∅;
     next_handle := O |}.

(** *** The device as a reactive system

    The host platform calls into the device: an interval elapses, a flow
    runs an action card, a timeout elapses, the device is deleted.  Each
    handler runs against the thermostat's next answers; a rejection that
    reaches the platform is dropped, the fields keep what was assigned. *)
Inductive Input :=
| PollTick
| RunSetTemperature (temperature : Q)
| RunSetTemperatureDuration (temperature duration : Q)
| TimeoutElapsed (h : nat)
| Deleted.

Definition handler (i : Input) : prog Device unit :=
  match i with
  | PollTick => pollData
  | RunSetTemperature t => setTemperatureAction t
  | RunSetTemperatureDuration t d => setTemperatureDurationAction t d
  | TimeoutElapsed h =>
      this ← get;
      match timeouts this !! h with
      | Some _ => clearTimeout h;; boostCallback
      | None => mret tt
      end
  | Deleted => onDeleted
  end.

Record World := {
  device : Device;
  network : Network;
  history : list Event }.

Definition step (w : World) (i : Input) : World :=
  let '(t, rs, net') := run (handler i (device w)) (network w) in
  {| device := rs.2; network := net'; history := history w ++ t |}.

Definition steps (w : World) (inputs : list Input) : World :=
  fold_left step inputs w.

End AtagOneDevice.

(** ** Observations on traces and sample thermostats *)

Definition requests_of (t : list Event) : list Message :=
  flat_map (fun e => match e with Sent _ _ b => [b] | Did _ => [] end) t.

Definition sleeps_of (t : list Event) : list Z :=
  flat_map (fun e => match e with Did (Sleep ms) => [ms] | _ => [] end) t.

Definition statuses_of (t : list Event) : list Z :=
  flat_map (fun e => match e with Did (OnStatus s) => [s] | _ => [] end) t.

Definition triggers_of (t : list Event) : list FlowTrigger :=
  flat_map (fun e => match e with Did (Trigger c) => [c] | _ => [] end) t.

Definition pair_response (s : Z) : Response :=
  {| pair_reply := Some {| pair_acc_status := Some s |};
     retrieve_reply := None;
     update_reply := None |}.

(** A thermostat that answers the successive pair requests with the given
    statuses and then stops answering. *)
Definition pair_answers (l : list Z) : Network :=
  fun i =>
    match l !! i with
    | Some s => Ok (pair_response s)
    | None => Err "Request timeout"
    end.

Definition retrieve_response (reply : RetrieveReply) : Response :=
  {| pair_reply := None; retrieve_reply := Some reply; update_reply := None |}.

Definition update_response (acc : option Z) : Response :=
  {| pair_reply := None;
     retrieve_reply := None;
     update_reply := Some {| update_acc_status := acc |} |}.

(** A retrieve reply of an authorized client carrying the given report. *)
Definition report_reply (rep : ReportBlock) : RetrieveReply :=
  {| status := None;
     report := Some rep;
     control := None;
     retrieve_acc_status := Some AuthStatus.GRANTED |}.

Definition pressure_report (p : Q) : ReportBlock :=
  {| room_temp := None; outside_temp := None;
     ch_water_pres := Some p; boiler_status := None |}.

Definition boiler_report (bs : Z) : ReportBlock :=
  {| room_temp := None; outside_temp := None;
     ch_water_pres := None; boiler_status := Some bs |}.

Definition granted_boiler_12 : Response :=
  retrieve_response (report_reply (boiler_report 12)).

Definition sample_settings : ConnectionSettings :=
  {| ipAddress := "192.168.1.100";
     macAddress := "aa:bb-cc-dd-ee-ff";
     deviceName := "Homey";
     email := "user@example.org" |}.

(** An attempt of [waitForAuthorization] that does not end the loop. *)
Definition attempt_events (this : ConnectionSettings) (intervalMs : Z)
    (onStatus : bool) (s : Z) : list Event :=
  Sent (ipAddress this) "/pair_message"
       (pair_message 1 (AtagOneApi.auth_of this)
          [ {| entry_user_account := email this;
               entry_mac_address := macAddress this;
               entry_device_name := deviceName this;
               account_type := 0 |} ])
  :: (if onStatus then [Did (OnStatus s)] else [])
  ++ [Did (Sleep intervalMs)].

(** The attempt that ends the loop: no sleep follows. *)
Definition final_attempt_events (this : ConnectionSettings) (onStatus : bool)
    (s : Z) : list Event :=
  Sent (ipAddress this) "/pair_message"
       (pair_message 1 (AtagOneApi.auth_of this)
          [ {| entry_user_account := email this;
               entry_mac_address := macAddress this;
               entry_device_name := deviceName this;
               account_type := 0 |} ])
  :: (if onStatus then [Did (OnStatus s)] else []).

(** The thermostat's answer decodes to a pair reply with status [s]. *)
Definition answers_status (r : result Response) (s : Z) : Prop :=
  exists response,
    r = Ok response /\ pair_reply response ≫= pair_acc_status = Some s.

Definition terminal (s : Z) : Prop :=
  s = AuthStatus.GRANTED \/ s = AuthStatus.DENIED.

(** The transform as the specification words it: round to the nearest
    half degree, then clamp to the interval from 4 to 27. *)
Definition nearest_half (t : Q) : Q :=
  (inject_Z (Qfloor (t * 2 + (1 # 2))) / 2)%Q.

Definition clamp (lo hi x : Q) : Q := Qmax lo (Qmin hi x).

Definition clampAndRound_spec (t : Q) : Q := clamp 4 27 (nearest_half t).

Definition clear_ip_update : PartialSettings :=
  {| p_ipAddress := Some "";
     p_macAddress := None;
     p_deviceName := None;
     p_email := None |}.

Definition rename_update : PartialSettings :=
  {| p_ipAddress := None;
     p_macAddress := Some "0a:1b-2c:3d-4e:5f";
     p_deviceName := Some "Hall";
     p_email := Some "" |}.

(** ** Change detection, field by field *)

Import AtagOneDevice.

(** What one cycle of change detection fires for each field, given the
    value recorded by the previous cycle. *)
Definition room_triggers (prev : option Q) (data : ThermostatData) : list FlowTrigger :=
  match roomTemperature data with
  | Some v => if differsQ prev v then [temperature_changed v] else []
  | None => []
  end.

Definition target_triggers (prev : option Q) (data : ThermostatData) : list FlowTrigger :=
  match targetTemperature data with
  | Some v => if differsQ prev v then [target_temperature_changed v] else []
  | None => []
  end.

Definition pressure_triggers (prev : option Q) (data : ThermostatData) : list FlowTrigger :=
  match waterPressure data with
  | Some v => if differsQ prev v then [pressure_changed v; pressure_too_low v v] else []
  | None => []
  end.

Definition boiler_triggers (prev : option bool) (data : ThermostatData) : list FlowTrigger :=
  match boilerHeating data with
  | Some v => if differsB prev v then [if v then boiler_started else boiler_stopped] else []
  | None => []
  end.

Definition diff_triggers (room target pressure : option Q) (boiler : option bool)
    (data : ThermostatData) : list FlowTrigger :=
  room_triggers room data ++ target_triggers target data
    ++ pressure_triggers pressure data ++ boiler_triggers boiler data.

(** The fields and capabilities after one cycle of change detection. *)
Definition record_capability {A} (name : string) (f : A -> capval) (o : option A)
    (store : gmap string capval) : gmap string capval :=
  match o with
  | Some v => <[name := f v]> store
  | None => store
  end.

Definition record {A} (o prev : option A) : option A :=
  match o with
  | Some v => Some v
  | None => prev
  end.

Definition after_update (data : ThermostatData) (d : Device) : Device :=
  {| api := api d;
     pollInterval := pollInterval d;
     boostTimeout := boostTimeout d;
     previousTemperature := previousTemperature d;
     prevRoomTemp := record (roomTemperature data) (prevRoomTemp d);
     prevTargetTemp := record (targetTemperature data) (prevTargetTemp d);
     prevPressure := record (waterPressure data) (prevPressure d);
     prevBoilerHeating := record (boilerHeating data) (prevBoilerHeating d);
     capabilities :=
       record_capability "alarm_generic.boiler" CapBool (boilerHeating data)
         (record_capability "measure_pressure" (fun p => CapNum (p * 1000))
            (waterPressure data)
            (record_capability "target_temperature" CapNum (targetTemperature data)
               (record_capability "measure_temperature" CapNum
                  (roomTemperature data) (capabilities d))));
     available := available d;
     unavailableMessage := unavailableMessage d;
     timeouts := timeouts d;
     intervals := intervals d;
     next_handle := next_handle d |}.

Definition is_pressure_trigger (c : FlowTrigger) : bool :=
  match c with
  | pressure_changed _ | pressure_too_low _ _ => true
  | _ => false
  end.

Definition is_boiler_trigger (c : FlowTrigger) : bool :=
  match c with
  | boiler_started | boiler_stopped => true
  | _ => false
  end.

(** The snapshot [getData] makes of one answer of the thermostat. *)
Definition snapshot_of (this : ConnectionSettings) (r : result Response)
  : result ThermostatData :=
  (value_of (run (AtagOneApi.getData this) (fun _ => r))).1.

Definition retrieve_request (d : Device) : Event :=
  Sent (ipAddress (api d)) "/retrieve"
       (retrieve_message 1 (AtagOneApi.auth_of (api d)) 25).

Definition after_poll (d : Device) (r : result Response) : Device :=
  match snapshot_of (api d) r with
  | Ok data =>
      if available d then after_update data d
      else with_availability true None (after_update data d)
  | Err _ => with_availability false (Some "Connection failed") d
  end.

Definition poll_triggers (d : Device) (r : result Response) : list FlowTrigger :=
  match snapshot_of (api d) r with
  | Ok data =>
      diff_triggers (prevRoomTemp d) (prevTargetTemp d) (prevPressure d)
        (prevBoilerHeating d) data
  | Err _ => []
  end.

(** ** Sample thermostats for the poller *)

(** A thermostat that keeps reporting a water pressure of 1.2 bar. *)
Definition steady_pressure : Network :=
  fun _ => Ok (retrieve_response (report_reply (pressure_report (12 # 10)))).

(** A thermostat whose successive reports carry the given boiler statuses. *)
Definition boiler_answers (l : list Z) : Network :=
  fun i =>
    match l !! i with
    | Some bs => Ok (retrieve_response (report_reply (boiler_report bs)))
    | None => Err "Request timeout"
    end.

(** A thermostat that refuses the client. *)
Definition denied_reply : RetrieveReply :=
  {| status := None; report := Some (pressure_report (9 # 10)); control := None;
     retrieve_acc_status := Some AuthStatus.DENIED |}.

Definition denying : Network := fun _ => Ok (retrieve_response denied_reply).

Definition fresh_world (net : Network) : World :=
  {| device := fresh sample_settings ∅; network := net; history := [] |}.

Definition boiler_fired (w : World) : list FlowTrigger :=
  List.filter is_boiler_trigger (triggers_of (history w)).

(** ** The boost timer *)

(** How [setTargetTemperature] ends on one answer of the thermostat. *)
Definition update_outcome (r : result Response) : result unit :=
  match r with
  | Err e => Err e
  | Ok response =>
      if bool_decide (update_reply response ≫= update_acc_status
                      = Some AuthStatus.DENIED)
      then Err AtagOneApi.AuthorizationDenied
      else if bool_decide (update_reply response ≫= update_acc_status
                           = Some AuthStatus.PENDING)
      then Err AtagOneApi.AuthorizationPending
      else Ok tt
  end.

Definition update_request (d : Device) (t : Q) : Event :=
  Sent (ipAddress (api d)) "/update"
       (update_message 1 (AtagOneApi.auth_of (api d)) (AtagOneApi.clampAndRound t)).

(** What [getCapabilityValue('target_temperature')] answers. *)
Definition target_capability (d : Device) : capval :=
  default CapNull (capabilities d !! "target_temperature").

(** The device after a duration action whose update was accepted. *)
Definition scheduled (temperature duration : Q) (d : Device) : Device :=
  {| api := api d;
     pollInterval := pollInterval d;
     boostTimeout := Some (next_handle d);
     previousTemperature := Some (target_capability d);
     prevRoomTemp := prevRoomTemp d;
     prevTargetTemp := prevTargetTemp d;
     prevPressure := prevPressure d;
     prevBoilerHeating := prevBoilerHeating d;
     capabilities := <["target_temperature" := CapNum temperature]> (capabilities d);
     available := available d;
     unavailableMessage := unavailableMessage d;
     timeouts :=
       <[next_handle d := (duration * 60 * 1000)%Q]>
         (match boostTimeout d with
          | Some h => delete h (timeouts d)
          | None => timeouts d
          end);
     intervals := intervals d;
     next_handle := S (next_handle d) |}.

(** A thermostat that accepts every update. *)
Definition accepting : Network := fun _ => Ok (update_response (Some AuthStatus.GRANTED)).

(** The device after the timeout [h] was taken off the timer table. *)
Definition elapsed (h : nat) (d : Device) : Device :=
  with_timers (delete h (timeouts d)) (intervals d) (next_handle d) d.


(** A device whose target temperature stands at 18 degrees, in front of a
    thermostat that accepts every update. *)
Definition at_18_degrees : World :=
  {| device := fresh sample_settings {[ "target_temperature" := CapNum 18 ]};
     network := accepting;
     history := [] |}.

(** ** The duration action between its suspension points

    The run listener of [set_temperature_duration] awaits twice before it
    touches the timer: the update request to the thermostat and the
    platform's [setCapabilityValue].  Its timeout callback awaits the
    update request before it writes the capability.  While a handler is
    suspended the platform runs others: another run of the action, a
    timeout that elapses, a poll.  Here the two handlers are cut at their
    awaits into the segments that run without interruption; a suspended
    handler is a [Task], and a [Tick] is the next thing the platform or the
    thermostat does.  The device is the one shared object: a segment sees
    the fields and the capability store as they are when it runs, not as
    they were when its handler started.

    The other handlers (a poll cycle, the plain set-temperature action, the
    deletion) touch neither [previousTemperature] nor [boostTimeout], and
    each writes the [target_temperature] capability at most once; they are
    taken whole, at the moment of that write, with the thermostat's answer
    to their request. *)

Module Interleaving.

Inductive Task :=
| ActionAwaitsUpdate (temperature duration : Q)
| ActionAwaitsCapability (temperature duration : Q)
| RestorationAwaitsUpdate.

Inductive Tick :=
| StartDurationAction (temperature duration : Q)
| UpdateAnswered (task : nat) (answer : result Response)
| CapabilityWritten (task : nat)
| TimeoutFires (h : nat)
| Completes (i : Input) (answer : result Response).

(** The action from its start to the call of [setTargetTemperature]. *)
Definition actionStart : prog Device unit :=
  previous ← getCapabilityValue "target_temperature";
  modify (with_previousTemperature (Some previous)).

(** The action after its update was accepted: the call of
    [setCapabilityValue]. *)
Definition actionWrite (temperature : Q) : prog Device unit :=
  setCapabilityValue "target_temperature" (CapNum temperature).

(** The action after [setCapabilityValue] resolved, to its end. *)
Definition actionInstall (duration : Q) : prog Device unit :=
  this ← get;
  match boostTimeout this with
  | Some h => clearTimeout h
  | None => mret tt
  end;;
  let durationMs := (duration * 60 * 1000)%Q in
  h ← setTimeout durationMs;
  modify (with_boostTimeout (Some h)).

(** The callback after its update was accepted: [setCapabilityValue] with
    the field as it is then.  The field is never assigned [undefined], so
    it still holds a value. *)
Definition restorationWrite : prog Device unit :=
  this ← get;
  match previousTemperature this with
  | Some previous => setCapabilityValue "target_temperature" previous
  | None => mret tt
  end.

(** A segment makes no request; it runs on the device as it is. *)
Definition exec (segment : prog Device unit) (d : Device) : Device :=
  (value_of (run (segment d) (fun _ => Err "no request in a segment"))).2.

Record System := {
  dev : Device;
  tasks : list (nat * Task);
  next_task : nat;
  sent : list Event }.

(** The suspended handler [i], taken off the list. *)
Fixpoint take (i : nat) (l : list (nat * Task)) : option (Task * list (nat * Task)) :=
  match l with
  | [] => None
  | (j, t) :: rest =>
      if Nat.eqb i j then Some (t, rest)
      else match take i rest with
           | Some (t', rest') => Some (t', (j, t) :: rest')
           | None => None
           end
  end.

(** Handlers without a part in the boost timer, run whole. *)
Definition whole (i : Input) : bool :=
  match i with
  | PollTick | RunSetTemperature _ | Deleted => true
  | RunSetTemperatureDuration _ _ | TimeoutElapsed _ => false
  end.

(** One tick; [None] when it cannot happen in this state (no such
    suspended handler, no such pending timeout). *)
Definition tick (s : System) (t : Tick) : option System :=
  match t with
  | StartDurationAction temperature duration =>
      Some {| dev := exec actionStart (dev s);
              tasks := tasks s ++ [(next_task s, ActionAwaitsUpdate temperature duration)];
              next_task := S (next_task s);
              sent := sent s ++ [update_request (dev s) temperature] |}
  | UpdateAnswered i answer =>
      match take i (tasks s) with
      | Some (ActionAwaitsUpdate temperature duration, rest) =>
          match update_outcome answer with
          | Ok _ =>
              Some {| dev := exec (actionWrite temperature) (dev s);
                      tasks := rest ++ [(i, ActionAwaitsCapability temperature duration)];
                      next_task := next_task s;
                      sent := sent s |}
          | Err _ =>
              Some {| dev := dev s; tasks := rest;
                      next_task := next_task s; sent := sent s |}
          end
      | Some (RestorationAwaitsUpdate, rest) =>
          match update_outcome answer with
          | Ok _ =>
              Some {| dev := exec restorationWrite (dev s); tasks := rest;
                      next_task := next_task s; sent := sent s |}
          | Err _ =>
              Some {| dev := dev s; tasks := rest;
                      next_task := next_task s; sent := sent s |}
          end
      | _ => None
      end
  | CapabilityWritten i =>
      match take i (tasks s) with
      | Some (ActionAwaitsCapability temperature duration, rest) =>
          Some {| dev := exec (actionInstall duration) (dev s); tasks := rest;
                  next_task := next_task s; sent := sent s |}
      | _ => None
      end
  | TimeoutFires h =>
      match timeouts (dev s) !! h with
      | Some _ =>
          let d := exec (clearTimeout h) (dev s) in
          match previousTemperature d with
          | Some previous =>
              Some {| dev := d;
                      tasks := tasks s ++ [(next_task s, RestorationAwaitsUpdate)];
                      next_task := S (next_task s);
                      sent := sent s ++ [update_request d (to_number previous)] |}
          | None =>
              Some {| dev := d; tasks := tasks s;
                      next_task := next_task s; sent := sent s |}
          end
      | None => None
      end
  | Completes i answer =>
      if whole i then
        let out := run (handler i (dev s)) (fun _ => answer) in
        Some {| dev := (value_of out).2; tasks := tasks s;
                next_task := next_task s; sent := sent s ++ trace_of out |}
      else None
  end.

Fixpoint ticks (s : System) (schedule : list Tick) : option System :=
  match schedule with
  | [] => Some s
  | t :: rest =>
      match tick s t with
      | Some s' => ticks s' rest
      | None => None
      end
  end.





(** The device after the last segment of an action. *)
Definition installed (duration : Q) (d : Device) : Device :=
  with_boostTimeout (Some (next_handle d))
    (with_timers
       (<[next_handle d := (duration * 60 * 1000)%Q]>
          (match boostTimeout d with
           | Some h => delete h (timeouts d)
           | None => timeouts d
           end))
       (intervals d) (S (next_handle d)) d).





End Interleaving.

(** ** Further observations on the API client *)

(** How [pair] ends on one answer of the thermostat. *)
Definition pair_outcome (this : ConnectionSettings) (r : result Response) : result Z :=
  (value_of (run (AtagOneApi.pair this) (fun _ => r))).1.

Definition pair_request (this : ConnectionSettings) : Event :=
  Sent (ipAddress this) "/pair_message"
       (pair_message 1 (AtagOneApi.auth_of this)
          [ {| entry_user_account := email this;
               entry_mac_address := macAddress this;
               entry_device_name := deviceName this;
               account_type := 0 |} ]).

(** The credentials and the sequence number a request carries. *)
Definition message_auth (m : Message) : AccountAuth :=
  match m with
  | pair_message _ a _ | retrieve_message _ a _ | update_message _ a _ => a
  end.

Definition message_seqnr (m : Message) : Z :=
  match m with
  | pair_message n _ _ | retrieve_message n _ _ | update_message n _ _ => n
  end.

(** The event is a request to the configured host, with the stored
    credentials and sequence number 1; or not a request at all. *)
Definition addressed (this : ConnectionSettings) (e : Event) : Prop :=
  match e with
  | Sent host _ body =>
      host = ipAddress this
      /\ message_auth body = AtagOneApi.auth_of this
      /\ message_seqnr body = 1
  | Did _ => True
  end.

(** A method of the client that only talks to the configured host with the
    stored credentials and leaves the settings as they were. *)
Definition keeps_settings {A} (m : prog ConnectionSettings A) : Prop :=
  forall (this : ConnectionSettings) (net : Network),
    Forall (addressed this) (trace_of (run (m this) net))
    /\ (value_of (run (m this) net)).2 = this.

(** ** Further handlers of the device *)

(** [DeviceSettings], the settings the platform keeps for the device. *)
Module Settings.
Record DeviceSettings := {
  ip_address : string;
  mac_address : string;
  device_name : string;
  email : string;
  poll_interval : Q }.
End Settings.

(** [changedKeys.includes(key)] *)
Definition includes (changedKeys : list string) (key : string) : bool :=
  existsb (String.eqb key) changedKeys.

Definition onSettings (newSettings : Settings.DeviceSettings)
    (changedKeys : list string) : prog Device unit :=
  when (includes changedKeys "ip_address" || includes changedKeys "device_name"
        || includes changedKeys "email")
    (modify (fun this =>
       with_api
         (AtagOneApi.updateSettings
            {| p_ipAddress := Some (Settings.ip_address newSettings);
               p_macAddress := None;
               p_deviceName := Some (Settings.device_name newSettings);
               p_email := Some (Settings.email newSettings) |}
            (api this))
         this));;
  when (includes changedKeys "poll_interval")
    (startPolling (Settings.poll_interval newSettings)).

(** [onInit], without the registration of capabilities and flow cards,
    which only touches registries of the platform. *)
Definition onInit (settings : Settings.DeviceSettings) : prog Device unit :=
  modify (with_api
            (AtagOneApi.constructor
               {| ipAddress := Settings.ip_address settings;
                  macAddress := Settings.mac_address settings;
                  deviceName := Settings.device_name settings;
                  email := Settings.email settings |}));;
  startPolling (Settings.poll_interval settings);;
  pollData.

(** Run listeners of the condition cards. *)
Definition temperatureAboveCondition (temperature : Q) : prog Device bool :=
  currentTemp ← getCapabilityValue "measure_temperature";
  mret (negb (Qle_bool (to_number currentTemp) temperature)).

Definition boilerHeatingCondition : prog Device bool :=
  isHeating ← getCapabilityValue "alarm_generic.boiler";
  mret (match isHeating with CapBool true => true | _ => false end).

Definition pressureAboveCondition (pressure : Q) : prog Device bool :=
  currentPressure ← getCapabilityValue "measure_pressure";
  mret (negb (Qle_bool (to_number currentPressure / 1000) pressure)).

(** The polling intervals still running are all the one kept in
    [pollInterval]. *)
Definition polling_ok (d : Device) : Prop :=
  forall h, is_Some (intervals d !! h) -> pollInterval d = Some h.

(** The boiler cards of a trace, [true] for started, [false] for stopped. *)
Definition boiler_polarity (c : FlowTrigger) : option bool :=
  match c with
  | boiler_started => Some true
  | boiler_stopped => Some false
  | _ => None
  end.

Definition boiler_events (w : World) : list bool :=
  omap boiler_polarity (triggers_of (history w)).

Fixpoint alternating (l : list bool) : bool :=
  match l with
  | a :: r =>
      match r with
      | b :: _ => negb (eqb a b) && alternating r
      | [] => true
      end
  | [] => true
  end.

(** A thermostat that answers every request with a transport failure. *)
Definition unreachable : Network := fun _ => Err "Request timeout".


(** A report with a room temperature and a boiler status. *)
Definition room_report (room : Q) (bs : Z) : ReportBlock :=
  {| room_temp := Some room; outside_temp := None;
     ch_water_pres := None; boiler_status := Some bs |}.

Definition is_poll (i : Input) : bool :=
  match i with
  | PollTick => true
  | _ => false
  end.

(** The device after [onDeleted]. *)
Definition deleted (d : Device) : Device :=
  {| api := api d;
     pollInterval := None;
     boostTimeout := boostTimeout d;
     previousTemperature := previousTemperature d;
     prevRoomTemp := prevRoomTemp d;
     prevTargetTemp := prevTargetTemp d;
     prevPressure := prevPressure d;
     prevBoilerHeating := prevBoilerHeating d;
     capabilities := capabilities d;
     available := available d;
     unavailableMessage := unavailableMessage d;
     timeouts := match boostTimeout d with
                 | Some h => delete h (timeouts d)
                 | None => timeouts d
                 end;
     intervals := match pollInterval d with
                  | Some h => delete h (intervals d)
                  | None => intervals d
                  end;
     next_handle := next_handle d |}.

(** The boiler cards triggered so far alternate, and the last one agrees
    with the flag kept for change detection. *)
Definition boiler_consistent (w : World) : Prop :=
  alternating (boiler_events w) = true
  /\ forall b, last (boiler_events w) = Some b ->
               prevBoilerHeating (device w) = Some b.

(** The device after [startPolling intervalSeconds]. *)
Definition polling (intervalSeconds : Q) (d : Device) : Device :=
  {| api := api d;
     pollInterval := Some (next_handle d);
     boostTimeout := boostTimeout d;
     previousTemperature := previousTemperature d;
     prevRoomTemp := prevRoomTemp d;
     prevTargetTemp := prevTargetTemp d;
     prevPressure := prevPressure d;
     prevBoilerHeating := prevBoilerHeating d;
     capabilities := capabilities d;
     available := available d;
     unavailableMessage := unavailableMessage d;
     timeouts := timeouts d;
     intervals :=
       <[next_handle d := (intervalSeconds * 1000)%Q]>
         (match pollInterval d with
          | Some h => delete h (intervals d)
          | None => intervals d
          end);
     next_handle := S (next_handle d) |}.

(** The connection settings [onSettings] hands to [updateSettings]. *)
Definition settings_update (newSettings : Settings.DeviceSettings) : PartialSettings :=
  {| p_ipAddress := Some (Settings.ip_address newSettings);
     p_macAddress := None;
     p_deviceName := Some (Settings.device_name newSettings);
     p_email := Some (Settings.email newSettings) |}.

Definition connection_changed (changedKeys : list string) : bool :=
  includes changedKeys "ip_address" || includes changedKeys "device_name"
  || includes changedKeys "email".

Definition sample_device_settings : Settings.DeviceSettings :=
  {| Settings.ip_address := "10.0.0.7";
     Settings.mac_address := "0a:1b:2c:3d:4e:5f";
     Settings.device_name := "";
     Settings.email := "owner@example.org";
     Settings.poll_interval := 60 |}.

(** ** AtagOneDriver *)

(** A method call on an object local to the handler: the object is
    dropped when the call returns. *)
Definition on_object {S S' A} (object : S') (m : prog S' A) : prog S A :=
  fun this => io_bind (m object) (fun rs => Ret (rs.1, this)).

Module AtagOneDriver.

Definition new_AtagOneApi (ip mac name mail : string) : ConnectionSettings :=
  AtagOneApi.constructor
    {| ipAddress := ip; macAddress := mac; deviceName := name; email := mail |}.

Record PairingData := {
  ipAddress : string;
  macAddress : string;
  deviceName : string;
  email : string }.

(** [{ success: true }] *)
Record ConfigureResult := { success : bool }.

(** An entry of the list returned by the [list_devices] handler. *)
Record DeviceEntry := {
  name : string;
  id : string;
  settings : Settings.DeviceSettings }.

Definition AuthorizationDeniedByThermostat : string :=
  "Authorization denied by thermostat".
Definition PleasePressYes : string :=
  "Please press YES on your ATAG One thermostat to authorize, then try again".

(** The value of the field at construction and at the start of [onPair]. *)
Definition blank : PairingData :=
  {| ipAddress := ""; macAddress := ""; deviceName := ""; email := "" |}.

Definition onPair : prog PairingData unit :=
  modify (fun _ => blank).

(** The [configure] handler. *)
Definition configure (data : PairingData) : prog PairingData ConfigureResult :=
  modify (fun _ =>
    {| ipAddress := ipAddress data;
       macAddress := macAddress data;
       deviceName := deviceName data;
       email := email data |});;
  this ← get;
  let api := new_AtagOneApi (ipAddress this) (macAddress this)
               (deviceName this) (email this) in
  try_catch
    (status ← on_object api AtagOneApi.pair;
     if status =? AuthStatus.GRANTED then mret {| success := true |}
     else if status =? AuthStatus.DENIED then throw AuthorizationDeniedByThermostat
     else throw PleasePressYes)
    (fun error => throw error).

(** The [list_devices] handler. *)
Definition list_devices : prog PairingData (list DeviceEntry) :=
  this ← get;
  let normalizedMac :=
    AtagOneApi.toUpperCase (AtagOneApi.strip_separators (macAddress this)) in
  mret [ {| name := "ATAG One 2.0";
            id := normalizedMac;
            settings :=
              {| Settings.ip_address := ipAddress this;
                 Settings.mac_address := macAddress this;
                 Settings.device_name := deviceName this;
                 Settings.email := email this;
                 Settings.poll_interval := 30 |} |} ].

End AtagOneDriver.

(** The client the [configure] handler makes from the pairing data. *)
Definition pairing_client (data : AtagOneDriver.PairingData) : ConnectionSettings :=
  AtagOneDriver.new_AtagOneApi
    (AtagOneDriver.ipAddress data) (AtagOneDriver.macAddress data)
    (AtagOneDriver.deviceName data) (AtagOneDriver.email data).

Definition sample_pairing : AtagOneDriver.PairingData :=
  {| AtagOneDriver.ipAddress := "10.0.0.7";
     AtagOneDriver.macAddress := "0a:1b:2c:3d:4e:5f";
     AtagOneDriver.deviceName := "Homey";
     AtagOneDriver.email := "owner@example.org" |}.

(** * Properties of AtagOneApi *)

Ltac prog_simpl :=
  repeat (unfold mbind, mret, prog_bind, prog_ret, get, modify, throw, perform, try_catch; cbn).

Section Bits.

Lemma ToInt32_mod (z : Z) : AtagOneApi.ToInt32 z mod 2 ^ 32 = z mod 2 ^ 32.
Proof.
  unfold AtagOneApi.ToInt32.
  rewrite Zminus_mod_idemp_l. f_equal. lia.
Qed.

Lemma ToInt32_testbit (z n : Z) :
  0 <= n < 32 -> Z.testbit (AtagOneApi.ToInt32 z) n = Z.testbit z n.
Proof.
  intros Hn.
  rewrite <- (Z.mod_pow2_bits_low (AtagOneApi.ToInt32 z) 32 n) by lia.
  rewrite ToInt32_mod. apply Z.mod_pow2_bits_low. lia.
Qed.

Lemma land_pow2_zero (x n : Z) :
  0 <= n -> negb (Z.land x (2 ^ n) =? 0) = Z.testbit x n.
Proof.
  intros Hn.
  destruct (Z.testbit x n) eqn:Hb.
  - apply negb_true_iff, Z.eqb_neq. intros H0.
    assert (Z.testbit (Z.land x (2 ^ n)) n = true) as Ht.
    { rewrite Z.land_spec, Hb, Z.pow2_bits_true; auto. }
    rewrite H0, Z.bits_0 in Ht. discriminate.
  - apply negb_false_iff, Z.eqb_eq. apply Z.bits_inj'. intros m Hm.
    rewrite Z.land_spec, Z.bits_0.
    destruct (Z.eq_dec n m) as [->|Hne].
    + rewrite Hb. reflexivity.
    + rewrite Z.pow2_bits_false by assumption. apply andb_false_r.
Qed.

Lemma bitand_8 (bs : Z) : negb (AtagOneApi.bitand bs 8 =? 0) = Z.testbit bs 3.
Proof.
  unfold AtagOneApi.bitand.
  change (AtagOneApi.ToInt32 8) with (2 ^ 3).
  rewrite land_pow2_zero by lia. apply ToInt32_testbit. lia.
Qed.

Lemma bitand_4 (bs : Z) : negb (AtagOneApi.bitand bs 4 =? 0) = Z.testbit bs 2.
Proof.
  unfold AtagOneApi.bitand.
  change (AtagOneApi.ToInt32 4) with (2 ^ 2).
  rewrite land_pow2_zero by lia. apply ToInt32_testbit. lia.
Qed.

End Bits.

Section GetData.

Import AtagOneApi.

Lemma getData_run (this : ConnectionSettings) (net : Network) :
  run (getData this) net =
  ([Sent (ipAddress this) "/retrieve" (retrieve_message 1 (auth_of this) 25)],
   match net O with
   | Err e => (Err e, this)
   | Ok response =>
       match retrieve_reply response with
       | None => (Err InvalidRetrieveResponse, this)
       | Some reply =>
           if bool_decide (retrieve_acc_status reply = Some AuthStatus.DENIED)
           then (Err AuthorizationDenied, this)
           else if bool_decide (retrieve_acc_status reply = Some AuthStatus.PENDING)
           then (Err AuthorizationPending, this)
           else
             let bs := default 0 (report reply ≫= boiler_status) in
             (Ok {| deviceId := status reply ≫= device_id;
                    roomTemperature := report reply ≫= room_temp;
                    targetTemperature := control reply ≫= ch_mode_temp;
                    outsideTemperature := report reply ≫= outside_temp;
                    waterPressure := report reply ≫= ch_water_pres;
                    boilerHeating := Some (Z.testbit bs 3);
                    hotWaterActive := Some (Z.testbit bs 2);
                    flameOn := Some (Z.testbit bs 3 || Z.testbit bs 2) |}, this)
       end
   end,
   next net).
Proof.
  unfold getData, retrieve, request, mbind, prog_bind, get. cbn.
  destruct (net O) as [response|e]; cbn; [|reflexivity].
  destruct (retrieve_reply response) as [reply|]; cbn; [|reflexivity].
  repeat case_bool_decide; cbn; try reflexivity.
  rewrite bitand_8, bitand_4. reflexivity.
Qed.

(** C4. [getData] sends one retrieve whose [info] mask selects exactly
    CONTROL, REPORT and STATUS.  On a decoded retrieve reply it throws the
    authorization-denied error exactly when [acc_status] is DENIED and the
    authorization-pending error exactly when it is PENDING; for any other
    [acc_status] (absent included) it returns a snapshot whose
    [boilerHeating] is bit 3 (value 8) of the boiler status, whose
    [hotWaterActive] is bit 2 (value 4), and whose [flameOn] is their
    disjunction. *)
Theorem getData_authorization_and_flags
    (this : ConnectionSettings) (net : Network)
    (response : Response) (reply : RetrieveReply) :
  net O = Ok response ->
  retrieve_reply response = Some reply ->
  let out := run (getData this) net in
  let bs := default 0 (report reply ≫= boiler_status) in
  (exists info,
     trace_of out = [Sent (ipAddress this) "/retrieve"
                       (retrieve_message 1 (auth_of this) info)]
     /\ Forall (fun flag => Z.land info flag = flag)
          [MessageInfo.CONTROL; MessageInfo.REPORT; MessageInfo.STATUS]
     /\ Forall (fun flag => Z.land info flag = 0)
          [MessageInfo.SCHEDULES; MessageInfo.CONFIGURATION;
           MessageInfo.WIFI; MessageInfo.DETAILS])
  /\ ((value_of out).1 = Err AuthorizationDenied
      <-> retrieve_acc_status reply = Some AuthStatus.DENIED)
  /\ ((value_of out).1 = Err AuthorizationPending
      <-> retrieve_acc_status reply = Some AuthStatus.PENDING)
  /\ (retrieve_acc_status reply <> Some AuthStatus.DENIED ->
      retrieve_acc_status reply <> Some AuthStatus.PENDING ->
      exists data,
        (value_of out).1 = Ok data
        /\ boilerHeating data = Some (Z.testbit bs 3)
        /\ hotWaterActive data = Some (Z.testbit bs 2)
        /\ flameOn data = Some (Z.testbit bs 3 || Z.testbit bs 2)).
Proof.
  intros Hnet Hreply out bs. subst out.
  rewrite getData_run, Hnet, Hreply. unfold trace_of, value_of. cbn [fst snd].
  split.
  { exists 25. split; [reflexivity|].
    split; repeat constructor. }
  repeat case_bool_decide; cbn [fst snd].
  - split; [tauto|]. split; [|congruence].
    split; [discriminate|]. intros Hp. rewrite Hp in *. discriminate.
  - split; [split; [discriminate|congruence]|].
    split; [tauto|]. congruence.
  - split; [split; [discriminate|congruence]|].
    split; [split; [discriminate|congruence]|].
    intros _ _. eexists. split; [reflexivity|]. cbn. auto.
Qed.

Lemma getData_authorization_and_flags_witness :
  exists data,
    (value_of (run (getData sample_settings) (fun _ => Ok granted_boiler_12))).1
      = Ok data
    /\ boilerHeating data = Some true
    /\ hotWaterActive data = Some true
    /\ flameOn data = Some true.
Proof.
  destruct (getData_authorization_and_flags sample_settings
              (fun _ => Ok granted_boiler_12) granted_boiler_12
              (report_reply (boiler_report 12)) eq_refl eq_refl)
    as (_ & _ & _ & Hdata).
  apply Hdata; discriminate.
Defined.

End GetData.

Section SetTargetTemperature.

Import AtagOneApi.

Lemma half_le (a b : Z) : (inject_Z a / 2 <= inject_Z b / 2)%Q <-> a <= b.
Proof. unfold Qle, Qdiv, Qmult, Qinv, inject_Z; cbn. lia. Qed.
Lemma half_lt (a b : Z) : (inject_Z a / 2 < inject_Z b / 2)%Q <-> a < b.
Proof. unfold Qlt, Qdiv, Qmult, Qinv, inject_Z; cbn. lia. Qed.
Lemma half_double (a : Z) : (inject_Z a == inject_Z (2 * a) / 2)%Q.
Proof. unfold Qeq, Qdiv, Qmult, Qinv, inject_Z; cbn. lia. Qed.

Lemma Qmin_half (a h : Z) :
  (Qmin (inject_Z a) (inject_Z h / 2) == inject_Z (Z.min (2 * a) h) / 2)%Q.
Proof.
  destruct (Q.min_spec (inject_Z a) (inject_Z h / 2)) as [[Hc ->]|[Hc ->]];
    rewrite (half_double a) in Hc.
  - apply (proj1 (half_lt _ _)) in Hc. rewrite Z.min_l by lia. apply half_double.
  - apply (proj1 (half_le _ _)) in Hc. rewrite Z.min_r by lia. reflexivity.
Qed.

Lemma Qmax_half (a h : Z) :
  (Qmax (inject_Z a) (inject_Z h / 2) == inject_Z (Z.max (2 * a) h) / 2)%Q.
Proof.
  destruct (Q.max_spec (inject_Z a) (inject_Z h / 2)) as [[Hc ->]|[Hc ->]];
    rewrite (half_double a) in Hc.
  - apply (proj1 (half_lt _ _)) in Hc. rewrite Z.max_r by lia. reflexivity.
  - apply (proj1 (half_le _ _)) in Hc. rewrite Z.max_l by lia. apply half_double.
Qed.

Lemma clampAndRound_half (t : Q) :
  (clampAndRound t == inject_Z (Z.max 8 (Z.min 54 (Math_round (t * 2)))) / 2)%Q.
Proof.
  unfold clampAndRound, MIN_TEMP, MAX_TEMP.
  change 27%Q with (inject_Z 27). change 4%Q with (inject_Z 4).
  rewrite Qmin_half, Qmax_half. reflexivity.
Qed.

Lemma Math_round_half (k : Z) : Math_round (inject_Z k / 2 * 2) = k.
Proof.
  unfold Math_round, Qfloor, Qplus, Qmult, Qdiv, Qinv, inject_Z; cbn.
  symmetry. apply (Z.div_unique _ _ _ 2); lia.
Qed.

Lemma Math_round_bounds (x : Q) :
  (inject_Z (Math_round x) - (1 # 2) <= x /\ x < inject_Z (Math_round x) + (1 # 2))%Q.
Proof.
  unfold Math_round.
  pose proof (Qfloor_le (x + (1 # 2))) as Hl.
  pose proof (Qlt_floor (x + (1 # 2))) as Hu.
  rewrite inject_Z_plus in Hu. change (inject_Z 1) with 1%Q in Hu.
  split; lra.
Qed.

Lemma Math_round_in_range (t : Q) :
  (4 <= t <= 27)%Q -> 8 <= Math_round (t * 2) <= 54.
Proof.
  intros [Hlo Hhi].
  destruct (Math_round_bounds (t * 2)) as [Hl Hu].
  split.
  - assert (inject_Z 7 < inject_Z (Math_round (t * 2)))%Q as H
      by (change (inject_Z 7) with 7%Q; lra).
    rewrite <- Zlt_Qlt in H. lia.
  - assert (inject_Z (Math_round (t * 2)) < inject_Z 55)%Q as H
      by (change (inject_Z 55) with 55%Q; lra).
    rewrite <- Zlt_Qlt in H. lia.
Qed.

Lemma half_inject (k : Z) : (inject_Z k / 2 == inject_Z k * (1 # 2))%Q.
Proof. reflexivity. Qed.

Lemma setTargetTemperature_run (t : Q) (this : ConnectionSettings) (net : Network) :
  run (setTargetTemperature t this) net =
  ([Sent (ipAddress this) "/update"
      (update_message 1 (auth_of this) (clampAndRound t))],
   match net O with
   | Err e => (Err e, this)
   | Ok response =>
       if bool_decide (update_reply response ≫= update_acc_status = Some AuthStatus.DENIED)
       then (Err AuthorizationDenied, this)
       else if bool_decide (update_reply response ≫= update_acc_status = Some AuthStatus.PENDING)
       then (Err AuthorizationPending, this)
       else (Ok tt, this)
   end,
   next net).
Proof.
  unfold setTargetTemperature, request, mbind, prog_bind, get. cbn.
  destruct (net O) as [response|e]; cbn; [|reflexivity].
  repeat case_bool_decide; reflexivity.
Qed.

(** C5. [setTargetTemperature] sends, as [ch_mode_temp], the input rounded
    to the nearest half degree and clamped to the interval from 4 to 27: the
    value sent is max(4, min(27, round(t*2)/2)); it lies between 4 and 27, is
    a multiple of one half, is within a quarter degree of an input that is
    already in range, and the transform applied to its own output gives the
    same number. *)
Theorem setTargetTemperature_clamps_and_rounds
    (this : ConnectionSettings) (net : Network) (t : Q) :
  let v := clampAndRound t in
  requests_of (trace_of (run (setTargetTemperature t this) net))
    = [update_message 1 (auth_of this) v]
  /\ v = clampAndRound_spec t
  /\ (4 <= v <= 27)%Q
  /\ (exists k : Z, v == inject_Z k / 2)%Q
  /\ ((4 <= t <= 27)%Q -> (t - (1 # 4) < v <= t + (1 # 4))%Q)
  /\ (clampAndRound v == v)%Q.
Proof.
  intros v. subst v.
  split; [rewrite setTargetTemperature_run; reflexivity|].
  split; [reflexivity|].
  pose proof (clampAndRound_half t) as Hv.
  set (h := Math_round (t * 2)) in *.
  split.
  { rewrite Hv. change 4%Q with (inject_Z 4). change 27%Q with (inject_Z 27).
    rewrite (half_double 4), (half_double 27), !half_le. lia. }
  split; [eexists; exact Hv|].
  split.
  { intros Ht. pose proof (Math_round_in_range t Ht) as Hr. fold h in Hr.
    rewrite Z.min_r, Z.max_r in Hv by lia.
    destruct (Math_round_bounds (t * 2)) as [Hl Hu]. fold h in Hl, Hu.
    rewrite Hv, half_inject. split; lra. }
  rewrite (clampAndRound_half (clampAndRound t)).
  assert (Math_round (clampAndRound t * 2) = Z.max 8 (Z.min 54 h)) as ->.
  { unfold Math_round. rewrite Hv. apply Math_round_half. }
  replace (Z.max 8 (Z.min 54 (Z.max 8 (Z.min 54 h)))) with (Z.max 8 (Z.min 54 h)) by lia.
  symmetry. exact Hv.
Qed.

Lemma setTargetTemperature_clamps_and_rounds_witness :
  ((2126 # 100) - (1 # 4) < clampAndRound (2126 # 100) <= (2126 # 100) + (1 # 4))%Q.
Proof.
  apply (setTargetTemperature_clamps_and_rounds sample_settings
           (fun _ => Err "Request timeout") (2126 # 100)).
  split; vm_compute; discriminate.
Defined.

End SetTargetTemperature.

Section WaitForAuthorization.

Import AtagOneApi.

Variable this : ConnectionSettings.
Variable intervalMs : Z.
Variable onStatus : bool.

Lemma waitLoop_continue (n : nat) (net : Network) (s : Z) :
  answers_status (net O) s ->
  ~ terminal s ->
  (run (waitLoop (S n) intervalMs onStatus this) net).1 =
  (attempt_events this intervalMs onStatus s
     ++ trace_of (run (waitLoop n intervalMs onStatus this) (next net)),
   value_of (run (waitLoop n intervalMs onStatus this) (next net))).
Proof.
  intros ([[[acc]|] rr ur] & Hnet & Hst) Hs; cbn in Hst; [subst acc|discriminate].
  unfold terminal in Hs.
  unfold attempt_events, trace_of, value_of.
  prog_simpl. unfold pair, request. prog_simpl. rewrite Hnet. prog_simpl.
  destruct (Z.eqb_spec s AuthStatus.GRANTED) as [?|_]; [tauto|].
  destruct (Z.eqb_spec s AuthStatus.DENIED) as [?|_]; [tauto|].
  destruct onStatus; cbn;
    destruct (run (waitLoop n intervalMs _ this) (next net)) as [[t a] net'];
    reflexivity.
Qed.

Lemma waitLoop_stop (n : nat) (net : Network) (s : Z) :
  answers_status (net O) s ->
  terminal s ->
  (run (waitLoop (S n) intervalMs onStatus this) net).1 =
  (final_attempt_events this onStatus s, (Ok s, this)).
Proof.
  intros ([[[acc]|] rr ur] & Hnet & Hst) Hs; cbn in Hst; [subst acc|discriminate].
  unfold final_attempt_events.
  prog_simpl. unfold pair, request. prog_simpl. rewrite Hnet. prog_simpl.
  destruct Hs as [-> | ->]; destruct onStatus; reflexivity.
Qed.

Lemma waitLoop_resolves (pre : list Z) (final : Z) :
  forall (n : nat) (net : Network),
    Forall (fun s => ~ terminal s) pre ->
    terminal final ->
    (length pre < n)%nat ->
    (forall i s, (pre ++ [final]) !! i = Some s -> answers_status (net i) s) ->
    (run (waitLoop n intervalMs onStatus this) net).1 =
    (flat_map (attempt_events this intervalMs onStatus) pre
       ++ final_attempt_events this onStatus final,
     (Ok final, this)).
Proof.
  induction pre as [|s pre IH]; intros n net Hpre Hfin Hlen Hnet.
  - destruct n as [|n]; [cbn in Hlen; lia|].
    apply waitLoop_stop; [apply (Hnet O); reflexivity | assumption].
  - destruct n as [|n]; [cbn in Hlen; lia|].
    inversion Hpre as [|? ? Hs Hrest]; subst.
    rewrite (waitLoop_continue n net s); [|apply (Hnet O); reflexivity | assumption].
    specialize (IH n (next net) Hrest Hfin ltac:(cbn in Hlen; lia)
                  (fun i s' H => Hnet (S i) s' H)).
    unfold trace_of, value_of. rewrite IH. cbn [fst snd flat_map].
    rewrite <- app_assoc. reflexivity.
Qed.

Lemma waitLoop_times_out (l : list Z) :
  forall (net : Network),
    Forall (fun s => ~ terminal s) l ->
    (forall i s, l !! i = Some s -> answers_status (net i) s) ->
    (run (waitLoop (length l) intervalMs onStatus this) net).1 =
    (flat_map (attempt_events this intervalMs onStatus) l,
     (Err AuthorizationTimeout, this)).
Proof.
  induction l as [|s l IH]; intros net Hl Hnet.
  - reflexivity.
  - inversion Hl as [|? ? Hs Hrest]; subst. cbn [length].
    rewrite (waitLoop_continue _ net s); [|apply (Hnet O); reflexivity | assumption].
    specialize (IH (next net) Hrest (fun i s' H => Hnet (S i) s' H)).
    unfold trace_of, value_of. rewrite IH. reflexivity.
Qed.

Lemma requests_of_app (a b : list Event) :
  requests_of (a ++ b) = requests_of a ++ requests_of b.
Proof. apply flat_map_app. Qed.

Lemma sleeps_of_app (a b : list Event) :
  sleeps_of (a ++ b) = sleeps_of a ++ sleeps_of b.
Proof. apply flat_map_app. Qed.

Lemma attempts_requests (l : list Z) :
  length (requests_of (flat_map (attempt_events this intervalMs onStatus) l)) = length l.
Proof.
  induction l as [|s l IH]; [reflexivity|].
  cbn [flat_map]. rewrite requests_of_app, length_app, IH.
  unfold attempt_events. destruct onStatus; reflexivity.
Qed.

Lemma attempts_sleeps (l : list Z) :
  sleeps_of (flat_map (attempt_events this intervalMs onStatus) l)
  = repeat intervalMs (length l).
Proof.
  induction l as [|s l IH]; [reflexivity|].
  cbn [flat_map]. rewrite sleeps_of_app, IH.
  unfold attempt_events. destruct onStatus; reflexivity.
Qed.

Lemma statuses_of_app (a b : list Event) :
  statuses_of (a ++ b) = statuses_of a ++ statuses_of b.
Proof. apply flat_map_app. Qed.

Lemma attempts_statuses (l : list Z) :
  statuses_of (flat_map (attempt_events this intervalMs onStatus) l)
  = (if onStatus then l else []).
Proof.
  induction l as [|s l IH]; [destruct onStatus; reflexivity|].
  cbn [flat_map]. rewrite statuses_of_app, IH.
  unfold attempt_events. destruct onStatus; reflexivity.
Qed.

Lemma attempts_statuses_final (l : list Z) (final : Z) :
  statuses_of (flat_map (attempt_events this intervalMs onStatus) l
                 ++ final_attempt_events this onStatus final)
  = (if onStatus then l ++ [final] else []).
Proof.
  rewrite statuses_of_app, attempts_statuses.
  unfold final_attempt_events. destruct onStatus; reflexivity.
Qed.

End WaitForAuthorization.

Section WaitForAuthorizationSpec.

Import AtagOneApi.

(** C3. [waitForAuthorization] makes at most [maxAttempts] pair calls,
    reports every status to the optional callback and sleeps [intervalMs]
    after each attempt that does not end the wait.  It returns at the first
    GRANTED or DENIED status, after exactly as many pair calls as statuses
    seen and without sleeping after that attempt; when each of the
    [maxAttempts] attempts yields a status that is neither, it throws the
    authorization-timeout error after exactly [maxAttempts] pair calls. *)
Theorem waitForAuthorization_attempts
    (this : ConnectionSettings) (maxAttempts intervalMs : Z) (onStatus : bool)
    (net : Network) (statuses : list Z) :
  (forall i s, statuses !! i = Some s -> answers_status (net i) s) ->
  let out := run (waitForAuthorization (Some maxAttempts) (Some intervalMs)
                    onStatus this) net in
  (forall pre final post,
      statuses = pre ++ final :: post ->
      Forall (fun s => ~ terminal s) pre ->
      terminal final ->
      Z.of_nat (length pre) < maxAttempts ->
      value_of out = (Ok final, this)
      /\ trace_of out
         = flat_map (attempt_events this intervalMs onStatus) pre
             ++ final_attempt_events this onStatus final
      /\ length (requests_of (trace_of out)) = S (length pre)
      /\ sleeps_of (trace_of out) = repeat intervalMs (length pre)
      /\ statuses_of (trace_of out) = (if onStatus then pre ++ [final] else []))
  /\ (Forall (fun s => ~ terminal s) statuses ->
      length statuses = Z.to_nat maxAttempts ->
      value_of out = (Err AuthorizationTimeout, this)
      /\ trace_of out = flat_map (attempt_events this intervalMs onStatus) statuses
      /\ length (requests_of (trace_of out)) = Z.to_nat maxAttempts
      /\ statuses_of (trace_of out) = (if onStatus then statuses else [])).
Proof.
  intros Hnet out. subst out.
  unfold waitForAuthorization, trace_of, value_of, default. cbn [from_option id].
  split.
  - intros pre final post -> Hpre Hfin Hlen.
    rewrite (waitLoop_resolves this intervalMs onStatus pre final
               (Z.to_nat maxAttempts) net Hpre Hfin); [|lia|].
    + cbn [fst snd]. split; [reflexivity|]. split; [reflexivity|].
      rewrite requests_of_app, sleeps_of_app, length_app.
      rewrite attempts_requests, attempts_sleeps.
      split; [unfold final_attempt_events; destruct onStatus; cbn; lia|].
      split; [unfold final_attempt_events; destruct onStatus; cbn;
              apply app_nil_r|].
      apply attempts_statuses_final.
    + intros i s Hi. apply Hnet.
      rewrite (cons_middle final pre post), app_assoc.
      apply lookup_app_l_Some. exact Hi.
  - intros Hall Hlen. rewrite <- Hlen.
    rewrite (waitLoop_times_out this intervalMs onStatus statuses net Hall Hnet).
    cbn [fst snd]. split; [reflexivity|]. split; [reflexivity|].
    split; [apply attempts_requests|apply attempts_statuses].
Qed.

Lemma waitForAuthorization_attempts_witness :
  let out := run (waitForAuthorization (Some 5) (Some 2000) true sample_settings)
                 (pair_answers [1; 1; 2]) in
  value_of out = (Ok AuthStatus.GRANTED, sample_settings)
  /\ length (requests_of (trace_of out)) = 3%nat
  /\ sleeps_of (trace_of out) = [2000; 2000]
  /\ statuses_of (trace_of out) = [1; 1; 2]
  /\ last (trace_of out) = Some (Did (OnStatus AuthStatus.GRANTED)).
Proof.
  destruct (waitForAuthorization_attempts sample_settings 5 2000 true
              (pair_answers [1; 1; 2]) [1; 1; 2]) as [Hres _].
  { intros i s Hi. unfold pair_answers. rewrite Hi.
    eexists. split; reflexivity. }
  destruct (Hres [1; 1] 2 [] eq_refl) as (Hv & Ht & Hn & Hs & Ho).
  { repeat constructor; unfold terminal, AuthStatus.GRANTED, AuthStatus.DENIED; lia. }
  { left. reflexivity. }
  { cbn. lia. }
  cbv zeta. repeat split; assumption.
Defined.

End WaitForAuthorizationSpec.

Section UpdateSettings.

Import AtagOneApi.

Lemma upper_ascii_idem (c : ascii) : upper_ascii (upper_ascii c) = upper_ascii c.
Proof. destruct c as [[] [] [] [] [] [] [] []]; reflexivity. Qed.

Lemma upper_ascii_separator (c : ascii) :
  is_separator (upper_ascii c) = is_separator c.
Proof. destruct c as [[] [] [] [] [] [] [] []]; reflexivity. Qed.

Lemma truthy_Some (v : string) : truthy (Some v) = true <-> v <> "".
Proof.
  unfold truthy. destruct (String.eqb_spec v ""); cbn; split; congruence.
Qed.

Lemma truthy_false (o : option string) :
  truthy o = false <-> o = None \/ o = Some "".
Proof.
  destruct o as [v|]; cbn.
  - destruct (String.eqb_spec v ""); cbn; split; intros H; subst; auto.
    + discriminate.
    + destruct H as [H|H]; congruence.
  - split; auto.
Qed.

Lemma normalizeMacAddress_chars (mac : string) :
  Forall (fun c => is_separator c = false /\ upper_ascii c = c)
         (list_ascii_of_string (normalizeMacAddress mac)).
Proof.
  unfold normalizeMacAddress.
  induction mac as [|c r IH]; cbn; [constructor|].
  destruct (is_separator c) eqn:Hc; [exact IH|].
  cbn. constructor; [|exact IH].
  split; [rewrite upper_ascii_separator; exact Hc | apply upper_ascii_idem].
Qed.

Lemma updateSettings_fields (partial : PartialSettings) (this : ConnectionSettings) :
  updateSettings partial this =
  {| ipAddress := if truthy (p_ipAddress partial)
                  then default "" (p_ipAddress partial) else ipAddress this;
     macAddress := if truthy (p_macAddress partial)
                   then normalizeMacAddress (default "" (p_macAddress partial))
                   else macAddress this;
     deviceName := if truthy (p_deviceName partial)
                   then default "" (p_deviceName partial) else deviceName this;
     email := if truthy (p_email partial)
              then default "" (p_email partial) else email this |}.
Proof.
  unfold updateSettings. destruct this.
  destruct (truthy (p_ipAddress partial)), (truthy (p_macAddress partial)),
    (truthy (p_deviceName partial)), (truthy (p_email partial)); reflexivity.
Qed.

(** Counterexample to C8 as stated: a field that is present in the partial
    settings with the empty string does not overwrite the stored value. *)
Lemma updateSettings_empty_string_kept :
  p_ipAddress clear_ip_update = Some ""
  /\ ipAddress (updateSettings clear_ip_update sample_settings) = "192.168.1.100"
  /\ ipAddress (updateSettings clear_ip_update sample_settings) <> "".
Proof. repeat split. discriminate. Qed.

(** C8 (amended). After [updateSettings partial], every field that is
    present in [partial] with a non-empty value holds that value, the MAC
    address being stored normalized (no colon or dash, no lower-case
    letter); every field that is absent or present with the empty string
    keeps its previous value. *)
Theorem updateSettings_merge (partial : PartialSettings) (this : ConnectionSettings) :
  let this' := updateSettings partial this in
  (forall v, p_ipAddress partial = Some v -> v <> "" -> ipAddress this' = v)
  /\ (forall v, p_macAddress partial = Some v -> v <> "" ->
        macAddress this' = normalizeMacAddress v
        /\ Forall (fun c => is_separator c = false /\ upper_ascii c = c)
                  (list_ascii_of_string (macAddress this')))
  /\ (forall v, p_deviceName partial = Some v -> v <> "" -> deviceName this' = v)
  /\ (forall v, p_email partial = Some v -> v <> "" -> email this' = v)
  /\ (p_ipAddress partial = None \/ p_ipAddress partial = Some "" ->
        ipAddress this' = ipAddress this)
  /\ (p_macAddress partial = None \/ p_macAddress partial = Some "" ->
        macAddress this' = macAddress this)
  /\ (p_deviceName partial = None \/ p_deviceName partial = Some "" ->
        deviceName this' = deviceName this)
  /\ (p_email partial = None \/ p_email partial = Some "" ->
        email this' = email this).
Proof.
  intros this'. subst this'. rewrite updateSettings_fields. cbn.
  repeat split.
  - intros v -> Hv. apply truthy_Some in Hv. rewrite Hv. reflexivity.
  - apply truthy_Some in H0. rewrite H, H0. reflexivity.
  - apply truthy_Some in H0. rewrite H, H0. apply normalizeMacAddress_chars.
  - intros v -> Hv. apply truthy_Some in Hv. rewrite Hv. reflexivity.
  - intros v -> Hv. apply truthy_Some in Hv. rewrite Hv. reflexivity.
  - intros H. apply truthy_false in H. rewrite H. reflexivity.
  - intros H. apply truthy_false in H. rewrite H. reflexivity.
  - intros H. apply truthy_false in H. rewrite H. reflexivity.
  - intros H. apply truthy_false in H. rewrite H. reflexivity.
Qed.

Lemma updateSettings_merge_witness :
  updateSettings rename_update sample_settings
  = {| ipAddress := "192.168.1.100";
       macAddress := "0A1B2C3D4E5F";
       deviceName := "Hall";
       email := "user@example.org" |}.
Proof.
  pose proof (updateSettings_merge rename_update sample_settings)
    as (_ & Hmac & Hname & _ & Hip & _ & _ & Hmail).
  destruct (Hmac "0a:1b-2c:3d-4e:5f" eq_refl ltac:(discriminate)) as [Hm _].
  specialize (Hname "Hall" eq_refl ltac:(discriminate)).
  specialize (Hip (or_introl eq_refl)).
  specialize (Hmail (or_intror eq_refl)).
  destruct (updateSettings rename_update sample_settings) as [i m n e].
  cbn in *. subst. reflexivity.
Defined.

End UpdateSettings.

(** * Properties of AtagOneDevice *)

Section Poller.

Lemma with_api_same (d : Device) : with_api (api d) d = d.
Proof. destruct d; reflexivity. Qed.

Lemma updateCapabilitiesAndTriggerFlows_run
    (data : ThermostatData) (d : Device) (net : Network) :
  run (updateCapabilitiesAndTriggerFlows data d) net =
  (map (fun c => Did (Trigger c))
       (diff_triggers (prevRoomTemp d) (prevTargetTemp d) (prevPressure d)
          (prevBoilerHeating d) data),
   (Ok tt, after_update data d), net).
Proof.
  unfold updateCapabilitiesAndTriggerFlows, diff_triggers, room_triggers,
    target_triggers, pressure_triggers, boiler_triggers, after_update.
  destruct d, data as [id room target outside pressure boiler hw flame].
  unfold setCapabilityValue, trigger, when.
  destruct room as [room|], target as [target|], pressure as [pressure|],
    boiler as [boiler|]; prog_simpl;
    repeat (match goal with
            | |- context [differsQ ?p ?v] => destruct (differsQ p v)
            | |- context [differsB ?p ?v] => destruct (differsB p v)
            end; prog_simpl);
    try reflexivity; destruct boiler; reflexivity.
Qed.

Lemma run_io_bind {A B} (m : io A) (f : A -> io B) (net : Network) :
  run (io_bind m f) net =
  (trace_of (run m net)
     ++ trace_of (run (f (value_of (run m net))) (run m net).2),
   value_of (run (f (value_of (run m net))) (run m net).2),
   (run (f (value_of (run m net))) (run m net).2).2).
Proof.
  unfold trace_of, value_of. revert net.
  induction m as [a|h p b k IH|e k IH]; intros net; cbn.
  - destruct (run (f a) net) as [[t x] n]. reflexivity.
  - rewrite IH. destruct (run (k (net O)) (next net)) as [[t x] n]. reflexivity.
  - rewrite IH. destruct (run k net) as [[t x] n]. reflexivity.
Qed.

Lemma getData_snapshot (this : ConnectionSettings) (net : Network) :
  run (AtagOneApi.getData this) net =
  ([Sent (ipAddress this) "/retrieve"
      (retrieve_message 1 (AtagOneApi.auth_of this) 25)],
   (snapshot_of this (net O), this), next net).
Proof.
  unfold snapshot_of, value_of. rewrite !getData_run. cbn [fst snd].
  destruct (net O) as [response|e]; [|reflexivity].
  destruct (retrieve_reply response) as [reply|]; [|reflexivity].
  repeat case_bool_decide; reflexivity.
Qed.

Lemma pollData_run (d : Device) (net : Network) :
  run (pollData d) net =
  (retrieve_request d :: map (fun c => Did (Trigger c)) (poll_triggers d (net O)),
   (Ok tt, after_poll d (net O)), next net).
Proof.
  unfold pollData, try_catch, call_api, after_poll, poll_triggers, retrieve_request.
  unfold mbind at 1. unfold prog_bind at 1.
  rewrite !run_io_bind. unfold trace_of, value_of.
  rewrite getData_snapshot. cbn [fst snd run app].
  rewrite with_api_same.
  destruct (snapshot_of (api d) (net O)) as [data|e]; cbn [fst snd run app].
  - unfold mbind, prog_bind.
    rewrite !run_io_bind. unfold trace_of, value_of.
    rewrite updateCapabilitiesAndTriggerFlows_run. cbn [fst snd].
    unfold getAvailable, when, setAvailable. prog_simpl.
    destruct (available d); cbn; rewrite !app_nil_r; reflexivity.
  - reflexivity.
Qed.

Lemma triggers_of_app (a b : list Event) :
  triggers_of (a ++ b) = triggers_of a ++ triggers_of b.
Proof. apply flat_map_app. Qed.

Lemma triggers_of_map (l : list FlowTrigger) :
  triggers_of (map (fun c => Did (Trigger c)) l) = l.
Proof.
  induction l as [|c l IH]; [reflexivity|].
  unfold triggers_of in *. cbn. f_equal. exact IH.
Qed.

Lemma pollData_triggers (d : Device) (net : Network) :
  triggers_of (trace_of (run (pollData d) net)) = poll_triggers d (net O).
Proof.
  rewrite pollData_run. unfold trace_of, retrieve_request. cbn.
  apply triggers_of_map.
Qed.

Lemma pollData_device (d : Device) (net : Network) :
  (value_of (run (pollData d) net)).2 = after_poll d (net O).
Proof. rewrite pollData_run. reflexivity. Qed.

Lemma filter_pressure_diff (r t p : option Q) (b : option bool) (data : ThermostatData) :
  List.filter is_pressure_trigger (diff_triggers r t p b data)
  = pressure_triggers p data.
Proof.
  unfold diff_triggers, room_triggers, target_triggers, pressure_triggers,
    boiler_triggers.
  rewrite !List.filter_app.
  destruct (roomTemperature data) as [x|]; [destruct (differsQ r x)|];
  destruct (targetTemperature data) as [y|]; try destruct (differsQ t y);
  destruct (waterPressure data) as [z|]; try destruct (differsQ p z);
  destruct (boilerHeating data) as [u|]; try destruct (differsB b u);
  try destruct u; reflexivity.
Qed.

Lemma filter_boiler_diff (r t p : option Q) (b : option bool) (data : ThermostatData) :
  List.filter is_boiler_trigger (diff_triggers r t p b data)
  = boiler_triggers b data.
Proof.
  unfold diff_triggers, room_triggers, target_triggers, pressure_triggers,
    boiler_triggers.
  rewrite !List.filter_app.
  destruct (roomTemperature data) as [x|]; [destruct (differsQ r x)|];
  destruct (targetTemperature data) as [y|]; try destruct (differsQ t y);
  destruct (waterPressure data) as [z|]; try destruct (differsQ p z);
  destruct (boilerHeating data) as [u|]; try destruct (differsB b u);
  try destruct u; reflexivity.
Qed.

Lemma differsQ_true (prev : option Q) (v : Q) :
  differsQ prev v = true <-> exists q, prev = Some q /\ ~ (q == v)%Q.
Proof.
  unfold differsQ. destruct prev as [q|].
  - rewrite negb_true_iff. split.
    + intros H. exists q. split; [reflexivity|].
      intros Heq. apply Qeq_bool_iff in Heq. congruence.
    + intros (q' & [= <-] & Hne).
      destruct (Qeq_bool q v) eqn:E; [|reflexivity].
      apply Qeq_bool_iff in E. contradiction.
  - split; [discriminate|]. intros (q & H & _). discriminate.
Qed.

Lemma differsQ_false (prev : option Q) (v : Q) :
  differsQ prev v = false <-> prev = None \/ exists q, prev = Some q /\ (q == v)%Q.
Proof.
  unfold differsQ. destruct prev as [q|].
  - rewrite negb_false_iff, Qeq_bool_iff. split.
    + intros H. right. exists q. auto.
    + intros [H|(q' & [= <-] & H)]; [discriminate|assumption].
  - split; auto.
Qed.

(** Counterexample to C1 as stated: the second of two cycles that both
    fetch a pressure of 1.2 bar fires nothing, not even the
    [pressure_too_low] card; neither does the first. *)
Lemma pressure_too_low_skipped_when_unchanged :
  let w1 := step (fresh_world steady_pressure) PollTick in
  let out := run (pollData (device w1)) (network w1) in
  (exists data, snapshot_of (api (device w1)) (network w1 O) = Ok data
                /\ waterPressure data = Some (12 # 10)%Q)
  /\ triggers_of (history w1) = []
  /\ triggers_of (trace_of out) = [].
Proof.
  cbv zeta. split; [eexists; split; reflexivity|].
  split; [reflexivity|].
  rewrite pollData_triggers. reflexivity.
Qed.

(** C1 (amended). In a poll cycle whose snapshot carries a pressure, the
    [pressure_too_low] card is triggered, with the new value as token and
    as state, exactly when [pressure_changed] is: when a pressure was
    recorded by an earlier cycle and the new value differs from it.  When
    the value equals the recorded one, or none was recorded, neither card
    is triggered. *)
Theorem pressure_cards_fire_together_on_change
    (d : Device) (net : Network) (data : ThermostatData) (p : Q) :
  snapshot_of (api d) (net O) = Ok data ->
  waterPressure data = Some p ->
  let fired :=
    List.filter is_pressure_trigger
      (triggers_of (trace_of (run (pollData d) net))) in
  ((exists q, prevPressure d = Some q /\ ~ (q == p)%Q) ->
     fired = [pressure_changed p; pressure_too_low p p])
  /\ (prevPressure d = None \/ (exists q, prevPressure d = Some q /\ (q == p)%Q) ->
     fired = []).
Proof.
  intros Hsnap Hp fired. subst fired.
  rewrite pollData_triggers. unfold poll_triggers. rewrite Hsnap.
  rewrite filter_pressure_diff. unfold pressure_triggers. rewrite Hp.
  split; intros H.
  - apply differsQ_true in H. rewrite H. reflexivity.
  - apply differsQ_false in H. rewrite H. reflexivity.
Qed.

Lemma pressure_cards_fire_together_on_change_witness :
  let w1 := step (fresh_world steady_pressure) PollTick in
  List.filter is_pressure_trigger
    (triggers_of (trace_of (run (pollData (device w1)) (network w1)))) = [].
Proof.
  cbv zeta.
  eapply (pressure_cards_fire_together_on_change
            (device (step (fresh_world steady_pressure) PollTick))
            (network (step (fresh_world steady_pressure) PollTick))
            _ (12 # 10)%Q).
  - reflexivity.
  - reflexivity.
  - right. exists (12 # 10)%Q. split; reflexivity.
Defined.

Lemma denied_snapshot (this : ConnectionSettings) (response : Response)
    (reply : RetrieveReply) :
  retrieve_reply response = Some reply ->
  retrieve_acc_status reply = Some AuthStatus.DENIED ->
  snapshot_of this (Ok response) = Err AtagOneApi.AuthorizationDenied.
Proof.
  intros Hr Hacc. unfold snapshot_of, value_of.
  rewrite getData_run, Hr. cbn [fst snd].
  rewrite bool_decide_eq_true_2 by assumption. reflexivity.
Qed.

(** C2. When [getData] fails in a poll cycle (as it does with the
    authorization-denied error on [acc_status] DENIED), the cycle triggers
    no card, leaves the four recorded previous values and the capability
    store as they were, and marks the device unavailable; the next poll
    therefore fires and records exactly what it would have fired and
    recorded had the failed cycle not happened. *)
Theorem pollData_failure_keeps_previous (d : Device) (net : Network) :
  let out := run (pollData d) net in
  let d' := (value_of out).2 in
  (forall e,
      snapshot_of (api d) (net O) = Err e ->
      triggers_of (trace_of out) = []
      /\ prevRoomTemp d' = prevRoomTemp d
      /\ prevTargetTemp d' = prevTargetTemp d
      /\ prevPressure d' = prevPressure d
      /\ prevBoilerHeating d' = prevBoilerHeating d
      /\ capabilities d' = capabilities d
      /\ available d' = false
      /\ unavailableMessage d' = Some "Connection failed"
      /\ forall net2,
           let out2 := run (pollData d') net2 in
           let ref2 := run (pollData d) net2 in
           triggers_of (trace_of out2) = triggers_of (trace_of ref2)
           /\ prevRoomTemp (value_of out2).2 = prevRoomTemp (value_of ref2).2
           /\ prevTargetTemp (value_of out2).2 = prevTargetTemp (value_of ref2).2
           /\ prevPressure (value_of out2).2 = prevPressure (value_of ref2).2
           /\ prevBoilerHeating (value_of out2).2
              = prevBoilerHeating (value_of ref2).2)
  /\ (forall response reply,
        net O = Ok response ->
        retrieve_reply response = Some reply ->
        retrieve_acc_status reply = Some AuthStatus.DENIED ->
        snapshot_of (api d) (net O) = Err AtagOneApi.AuthorizationDenied).
Proof.
  intros out d'. subst out d'. split.
  - intros e He.
    rewrite pollData_triggers, pollData_device.
    unfold poll_triggers, after_poll. rewrite He.
    do 8 (split; [reflexivity|]).
    intros net2. cbv zeta.
    rewrite !pollData_triggers, !pollData_device.
    unfold poll_triggers, after_poll. cbn.
    destruct (snapshot_of (api d) (net2 O)) as [data|e2];
      [|repeat split; reflexivity].
    destruct (available d); repeat split; reflexivity.
  - intros response reply Hnet Hr Hacc. rewrite Hnet.
    eapply denied_snapshot; eassumption.
Qed.

Lemma pollData_failure_keeps_previous_witness :
  let d := device (step (fresh_world steady_pressure) PollTick) in
  let d' := (value_of (run (pollData d) denying)).2 in
  prevPressure d' = Some (12 # 10)%Q
  /\ available d' = false
  /\ triggers_of (trace_of (run (pollData d) denying)) = [].
Proof.
  cbv zeta.
  pose proof (pollData_failure_keeps_previous
                (device (step (fresh_world steady_pressure) PollTick)) denying)
    as [Hfail Hdenied].
  specialize (Hdenied (retrieve_response denied_reply) denied_reply
                eq_refl eq_refl eq_refl).
  destruct (Hfail _ Hdenied) as (Ht & _ & _ & Hp & _ & _ & Ha & _).
  split; [rewrite Hp; reflexivity|]. split; assumption.
Defined.

Lemma step_PollTick (w : World) :
  step w PollTick =
  {| device := after_poll (device w) (network w O);
     network := next (network w);
     history := history w ++ retrieve_request (device w)
                  :: map (fun c => Did (Trigger c))
                       (poll_triggers (device w) (network w O)) |}.
Proof. unfold step, handler. rewrite pollData_run. reflexivity. Qed.

Lemma after_poll_api (d : Device) (r : result Response) :
  api (after_poll d r) = api d.
Proof.
  unfold after_poll. destruct (snapshot_of (api d) r); [|reflexivity].
  destruct (available d); reflexivity.
Qed.

Lemma after_poll_boiler (d : Device) (r : result Response)
    (data : ThermostatData) (b : bool) :
  snapshot_of (api d) r = Ok data ->
  boilerHeating data = Some b ->
  prevBoilerHeating (after_poll d r) = Some b.
Proof.
  intros Hs Hb. unfold after_poll. rewrite Hs.
  destruct (available d); cbn; rewrite Hb; reflexivity.
Qed.

Lemma step_PollTick_boiler (w : World) (data : ThermostatData) (b : bool) :
  snapshot_of (api (device w)) (network w O) = Ok data ->
  boilerHeating data = Some b ->
  boiler_fired (step w PollTick)
  = boiler_fired w ++ boiler_triggers (prevBoilerHeating (device w)) data
  /\ prevBoilerHeating (device (step w PollTick)) = Some b
  /\ api (device (step w PollTick)) = api (device w)
  /\ network (step w PollTick) = next (network w).
Proof.
  intros Hs Hb. rewrite step_PollTick. cbn [device network history].
  split; [|split; [eapply after_poll_boiler; eassumption|]].
  - unfold boiler_fired. cbn [history].
    rewrite triggers_of_app, List.filter_app. f_equal.
    unfold retrieve_request. cbn [triggers_of flat_map app].
    fold (triggers_of (map (fun c => Did (Trigger c))
            (poll_triggers (device w) (network w O)))).
    rewrite triggers_of_map. unfold poll_triggers. rewrite Hs.
    apply filter_boiler_diff.
  - split; [apply after_poll_api|reflexivity].
Qed.

(** C6. A poll cycle triggers [boiler_started] exactly when the recorded
    boiler-heating flag is false and the fetched one is true, and
    [boiler_stopped] exactly when the recorded one is true and the fetched
    one is false; no boiler card is triggered otherwise.  Four cycles of a
    new device fetching the flags false, true, true, false trigger exactly
    [boiler_started] then [boiler_stopped].  The hot-water and flame flags
    of a snapshot have no influence on what a cycle triggers or records. *)
Theorem boiler_cards_on_transitions :
  (forall (d : Device) (net : Network) (data : ThermostatData) (b : bool),
      snapshot_of (api d) (net O) = Ok data ->
      boilerHeating data = Some b ->
      List.filter is_boiler_trigger
        (triggers_of (trace_of (run (pollData d) net)))
      = match prevBoilerHeating d with
        | Some false => if b then [boiler_started] else []
        | Some true => if b then [] else [boiler_stopped]
        | None => []
        end)
  /\ (forall (settings : ConnectionSettings) (store : gmap string capval)
             (net : Network) (s1 s2 s3 s4 : ThermostatData),
        let this := AtagOneApi.constructor settings in
        snapshot_of this (net 0%nat) = Ok s1 -> boilerHeating s1 = Some false ->
        snapshot_of this (net 1%nat) = Ok s2 -> boilerHeating s2 = Some true ->
        snapshot_of this (net 2%nat) = Ok s3 -> boilerHeating s3 = Some true ->
        snapshot_of this (net 3%nat) = Ok s4 -> boilerHeating s4 = Some false ->
        boiler_fired
          (steps {| device := fresh settings store; network := net; history := [] |}
                 [PollTick; PollTick; PollTick; PollTick])
        = [boiler_started; boiler_stopped])
  /\ (forall (data data' : ThermostatData) (d : Device) (net : Network),
        roomTemperature data = roomTemperature data' ->
        targetTemperature data = targetTemperature data' ->
        waterPressure data = waterPressure data' ->
        boilerHeating data = boilerHeating data' ->
        run (updateCapabilitiesAndTriggerFlows data d) net
        = run (updateCapabilitiesAndTriggerFlows data' d) net).
Proof.
  split; [|split].
  - intros d net data b Hs Hb.
    rewrite pollData_triggers. unfold poll_triggers. rewrite Hs.
    rewrite filter_boiler_diff. unfold boiler_triggers. rewrite Hb.
    destruct (prevBoilerHeating d) as [[]|], b; reflexivity.
  - intros settings store net s1 s2 s3 s4 this H1 B1 H2 B2 H3 B3 H4 B4.
    set (w0 := {| device := fresh settings store; network := net; history := [] |}).
    cbn [steps fold_left].
    destruct (step_PollTick_boiler w0 s1 false H1 B1) as (F1 & P1 & A1 & N1).
    set (w1 := step w0 PollTick) in *.
    destruct (step_PollTick_boiler w1 s2 true) as (F2 & P2 & A2 & N2);
      [rewrite A1, N1; exact H2 | exact B2 |].
    set (w2 := step w1 PollTick) in *.
    destruct (step_PollTick_boiler w2 s3 true) as (F3 & P3 & A3 & N3);
      [rewrite A2, A1, N2, N1; exact H3 | exact B3 |].
    set (w3 := step w2 PollTick) in *.
    destruct (step_PollTick_boiler w3 s4 false) as (F4 & P4 & A4 & N4);
      [rewrite A3, A2, A1, N3, N2, N1; exact H4 | exact B4 |].
    rewrite F4, F3, F2, F1, P3, P2, P1.
    unfold boiler_triggers. rewrite B1, B2, B3, B4. reflexivity.
  - intros data data' d net Hr Ht Hp Hb.
    rewrite !updateCapabilitiesAndTriggerFlows_run.
    unfold diff_triggers, room_triggers, target_triggers, pressure_triggers,
      boiler_triggers, after_update.
    rewrite Hr, Ht, Hp, Hb. reflexivity.
Qed.

Lemma boiler_cards_on_transitions_witness :
  boiler_fired (steps (fresh_world (boiler_answers [0; 8; 8; 0]))
                  [PollTick; PollTick; PollTick; PollTick])
  = [boiler_started; boiler_stopped].
Proof.
  destruct boiler_cards_on_transitions as (_ & Hseq & _).
  eapply (Hseq sample_settings ∅ (boiler_answers [0; 8; 8; 0]));
    reflexivity.
Defined.

(** C7. On a successful poll of a device that has recorded no previous
    value, no card is triggered whatever the snapshot holds, and the
    recorded values become those of the snapshot: the next successful poll
    triggers exactly the differences between its snapshot and this one. *)
Theorem first_poll_records_baseline
    (d : Device) (net : Network) (data : ThermostatData) :
  prevRoomTemp d = None ->
  prevTargetTemp d = None ->
  prevPressure d = None ->
  prevBoilerHeating d = None ->
  snapshot_of (api d) (net O) = Ok data ->
  let out := run (pollData d) net in
  let d' := (value_of out).2 in
  triggers_of (trace_of out) = []
  /\ prevRoomTemp d' = roomTemperature data
  /\ prevTargetTemp d' = targetTemperature data
  /\ prevPressure d' = waterPressure data
  /\ prevBoilerHeating d' = boilerHeating data
  /\ forall (net2 : Network) (data2 : ThermostatData),
       snapshot_of (api d') (net2 O) = Ok data2 ->
       triggers_of (trace_of (run (pollData d') net2))
       = diff_triggers (roomTemperature data) (targetTemperature data)
           (waterPressure data) (boilerHeating data) data2.
Proof.
  intros Hr Ht Hp Hb Hs out d'. subst out d'.
  rewrite pollData_triggers, pollData_device.
  unfold poll_triggers at 1. rewrite Hs, Hr, Ht, Hp, Hb.
  assert (forall A (o : option A), record o None = o) as Hrec
    by (intros A [x|]; reflexivity).
  assert (prevRoomTemp (after_poll d (net O)) = roomTemperature data
          /\ prevTargetTemp (after_poll d (net O)) = targetTemperature data
          /\ prevPressure (after_poll d (net O)) = waterPressure data
          /\ prevBoilerHeating (after_poll d (net O)) = boilerHeating data)
    as (Er & Et & Ep & Eb).
  { unfold after_poll. rewrite Hs.
    destruct (available d); cbn; rewrite Hr, Ht, Hp, Hb, !Hrec; auto. }
  split.
  { unfold diff_triggers, room_triggers, target_triggers, pressure_triggers,
      boiler_triggers.
    destruct (roomTemperature data), (targetTemperature data),
      (waterPressure data), (boilerHeating data); reflexivity. }
  do 4 (split; [assumption|]).
  intros net2 data2 Hs2.
  rewrite pollData_triggers. unfold poll_triggers.
  rewrite Hs2, Er, Et, Ep, Eb. reflexivity.
Qed.

Lemma first_poll_records_baseline_witness :
  let out := run (pollData (fresh sample_settings ∅)) steady_pressure in
  triggers_of (trace_of out) = []
  /\ prevPressure (value_of out).2 = Some (12 # 10)%Q.
Proof.
  cbv zeta.
  destruct (first_poll_records_baseline (fresh sample_settings ∅) steady_pressure
              _ eq_refl eq_refl eq_refl eq_refl eq_refl)
    as (Ht & _ & _ & Hp & _).
  split; assumption.
Defined.

End Poller.

Section Boost.

Lemma run_mbind {S A B} (m : prog S A) (f : A -> prog S B) (s : S) (net : Network) :
  run ((m ≫= f) s) net =
  match value_of (run (m s) net) with
  | (Ok a, s') =>
      (trace_of (run (m s) net) ++ trace_of (run (f a s') (run (m s) net).2),
       value_of (run (f a s') (run (m s) net).2),
       (run (f a s') (run (m s) net).2).2)
  | (Err e, s') => (trace_of (run (m s) net), (Err e, s'), (run (m s) net).2)
  end.
Proof.
  unfold mbind, prog_bind. rewrite run_io_bind.
  unfold trace_of, value_of.
  destruct (run (m s) net) as [[t [[a|e] s']] net']; cbn; [reflexivity|].
  rewrite app_nil_r. reflexivity.
Qed.

Lemma call_api_setTargetTemperature_run (t : Q) (d : Device) (net : Network) :
  run (call_api (AtagOneApi.setTargetTemperature t) d) net =
  ([update_request d t], (update_outcome (net O), d), next net).
Proof.
  unfold call_api. rewrite run_io_bind.
  unfold trace_of, value_of. rewrite setTargetTemperature_run. cbn [fst snd run app].
  unfold update_request, update_outcome.
  destruct (net O) as [response|e]; cbn [fst snd]; rewrite ?with_api_same;
    [|reflexivity].
  repeat case_bool_decide; cbn [fst snd]; rewrite with_api_same; reflexivity.
Qed.

Lemma setTemperatureDurationAction_run (temperature duration : Q)
    (d : Device) (net : Network) :
  run (setTemperatureDurationAction temperature duration d) net =
  ([update_request d temperature],
   match update_outcome (net O) with
   | Ok _ => (Ok tt, scheduled temperature duration d)
   | Err e => (Err e, with_previousTemperature (Some (target_capability d)) d)
   end,
   next net).
Proof.
  unfold setTemperatureDurationAction, getCapabilityValue, setCapabilityValue,
    setTimeout, clearTimeout, call_api, AtagOneApi.setTargetTemperature,
    AtagOneApi.request, update_request, update_outcome, scheduled,
    target_capability.
  destruct d. prog_simpl.
  destruct (net O) as [response|e]; prog_simpl; [|reflexivity].
  repeat case_bool_decide; prog_simpl; try reflexivity.
  destruct boostTimeout0; reflexivity.
Qed.

Lemma TimeoutElapsed_run (h : nat) (d : Device) (net : Network) :
  run (handler (TimeoutElapsed h) d) net =
  match timeouts d !! h with
  | None => ([], (Ok tt, d), net)
  | Some _ =>
      match previousTemperature d with
      | None => ([], (Ok tt, elapsed h d), net)
      | Some previous =>
          ([update_request d (to_number previous)],
           match update_outcome (net O) with
           | Ok _ =>
               (Ok tt,
                with_capabilities
                  (<["target_temperature" := previous]> (capabilities d))
                  (elapsed h d))
           | Err e => (Err e, elapsed h d)
           end,
           next net)
      end
  end.
Proof.
  unfold handler, boostCallback, clearTimeout, setCapabilityValue, call_api,
    AtagOneApi.setTargetTemperature, AtagOneApi.request, update_request,
    update_outcome, elapsed.
  destruct d. prog_simpl.
  destruct (timeouts0 !! h); prog_simpl; [|reflexivity].
  destruct previousTemperature0 as [previous|]; prog_simpl; [|reflexivity].
  destruct (net O) as [response|e]; prog_simpl; [|reflexivity].
  repeat case_bool_decide; reflexivity.
Qed.

Lemma setTemperatureAction_run (t : Q) (d : Device) (net : Network) :
  run (setTemperatureAction t d) net =
  ([update_request d t],
   match update_outcome (net O) with
   | Ok _ =>
       (Ok tt, with_capabilities (<["target_temperature" := CapNum t]> (capabilities d)) d)
   | Err e => (Err e, d)
   end,
   next net).
Proof.
  unfold setTemperatureAction, setCapabilityValue, call_api,
    AtagOneApi.setTargetTemperature, AtagOneApi.request, update_request,
    update_outcome.
  destruct d. prog_simpl.
  destruct (net O) as [response|e]; prog_simpl; [|reflexivity].
  repeat case_bool_decide; reflexivity.
Qed.




End Boost.

(** * Further properties *)

Section Normalize.
Import AtagOneApi.

Lemma toUpperCase_idem (s : string) : toUpperCase (toUpperCase s) = toUpperCase s.
Proof.
  induction s as [|c r IH]; [reflexivity|].
  cbn. rewrite upper_ascii_idem, IH. reflexivity.
Qed.

Lemma strip_toUpperCase (s : string) :
  strip_separators (toUpperCase s) = toUpperCase (strip_separators s).
Proof.
  induction s as [|c r IH]; [reflexivity|].
  cbn. rewrite upper_ascii_separator.
  destruct (is_separator c); cbn; rewrite IH; reflexivity.
Qed.

Lemma strip_separators_idem (s : string) :
  strip_separators (strip_separators s) = strip_separators s.
Proof.
  induction s as [|c r IH]; [reflexivity|].
  cbn. destruct (is_separator c) eqn:E; [exact IH|].
  cbn. rewrite E, IH. reflexivity.
Qed.

Lemma append_String (c : ascii) (r b : string) :
  (String c r ++ b = String c (r ++ b))%string.
Proof. reflexivity. Qed.

Lemma toUpperCase_app (a b : string) :
  toUpperCase (a ++ b) = (toUpperCase a ++ toUpperCase b)%string.
Proof.
  induction a as [|c r IH]; [reflexivity|].
  rewrite append_String. cbn [toUpperCase]. rewrite IH, append_String. reflexivity.
Qed.

Lemma strip_separators_app (a b : string) :
  strip_separators (a ++ b) = (strip_separators a ++ strip_separators b)%string.
Proof.
  induction a as [|c r IH]; [reflexivity|].
  rewrite append_String. cbn [strip_separators].
  destruct (is_separator c); rewrite IH, ?append_String; reflexivity.
Qed.

Lemma normalizeMacAddress_idem_aux (mac : string) :
  normalizeMacAddress (normalizeMacAddress mac) = normalizeMacAddress mac.
Proof.
  unfold normalizeMacAddress.
  rewrite strip_toUpperCase, strip_separators_idem, toUpperCase_idem.
  reflexivity.
Qed.

(** X1. [normalizeMacAddress] is idempotent, does not depend on the case of
    ASCII letters nor on separators already removed, and distributes over
    concatenation, so that colons and dashes may stand anywhere in the
    input without changing the result. *)
Theorem normalizeMacAddress_canonical (mac rest : string) :
  normalizeMacAddress (normalizeMacAddress mac) = normalizeMacAddress mac
  /\ normalizeMacAddress (toUpperCase mac) = normalizeMacAddress mac
  /\ normalizeMacAddress (strip_separators mac) = normalizeMacAddress mac
  /\ normalizeMacAddress (mac ++ rest)
     = (normalizeMacAddress mac ++ normalizeMacAddress rest)%string
  /\ normalizeMacAddress (mac ++ ":" ++ rest) = normalizeMacAddress (mac ++ rest)
  /\ normalizeMacAddress (mac ++ "-" ++ rest) = normalizeMacAddress (mac ++ rest).
Proof.
  unfold normalizeMacAddress.
  assert (forall a b, toUpperCase (strip_separators (a ++ b))
                      = (toUpperCase (strip_separators a)
                           ++ toUpperCase (strip_separators b))%string) as Happ
    by (intros a b; rewrite strip_separators_app, toUpperCase_app; reflexivity).
  split; [rewrite strip_toUpperCase, strip_separators_idem, toUpperCase_idem;
          reflexivity|].
  split; [rewrite strip_toUpperCase, toUpperCase_idem; reflexivity|].
  split; [rewrite strip_separators_idem; reflexivity|].
  split; [apply Happ|].
  split; rewrite !Happ; reflexivity.
Qed.

(** X2. The MAC address held by the client is always in normal form: the
    constructor stores it normalized and no sequence of [updateSettings]
    calls changes that. *)
Theorem macAddress_always_normalized
    (settings : ConnectionSettings) (updates : list PartialSettings) :
  let this := fold_left (fun this partial => updateSettings partial this)
                        updates (constructor settings) in
  normalizeMacAddress (macAddress this) = macAddress this.
Proof.
  cbv zeta.
  assert (normalizeMacAddress (macAddress (constructor settings))
          = macAddress (constructor settings)) as Hinit
    by (cbn; apply normalizeMacAddress_idem_aux).
  revert Hinit. generalize (constructor settings) as this.
  induction updates as [|p updates IH]; intros this Hn; [exact Hn|].
  cbn [fold_left]. apply IH.
  rewrite updateSettings_fields. cbn [macAddress].
  destruct (truthy (p_macAddress p)); [apply normalizeMacAddress_idem_aux|exact Hn].
Qed.

End Normalize.

Section ApiOutcomes.
Import AtagOneApi.

Lemma pair_run (this : ConnectionSettings) (net : Network) :
  run (pair this) net =
  ([pair_request this],
   (match net O with
    | Err e => Err e
    | Ok response =>
        match pair_reply response ≫= pair_acc_status with
        | Some s => Ok s
        | None => Err InvalidPairResponse
        end
    end, this),
   next net).
Proof.
  unfold pair, request, pair_request. prog_simpl.
  destruct (net O) as [[[[acc]|] rr ur]|e]; prog_simpl; try reflexivity.
  destruct acc; reflexivity.
Qed.

(** X3. [pair] sends exactly one pair request and leaves the settings
    alone.  It returns a status exactly when the answer decodes to a pair
    reply that carries one, whatever its value; a transport failure is
    passed on, and a decoded answer without [pair_reply] or without
    [acc_status] is the invalid-pair-response error. *)
Theorem pair_single_request_and_outcome (this : ConnectionSettings) (net : Network) :
  let out := run (pair this) net in
  trace_of out = [pair_request this]
  /\ (value_of out).2 = this
  /\ (forall s, (value_of out).1 = Ok s <-> answers_status (net O) s)
  /\ (forall e, net O = Err e -> (value_of out).1 = Err e)
  /\ (forall response,
        net O = Ok response ->
        pair_reply response ≫= pair_acc_status = None ->
        (value_of out).1 = Err InvalidPairResponse).
Proof.
  cbv zeta. rewrite pair_run. unfold trace_of, value_of, answers_status. cbn [fst snd].
  split; [reflexivity|]. split; [reflexivity|].
  split; [|split].
  - intros s. destruct (net O) as [response|e].
    + destruct (pair_reply response ≫= pair_acc_status) as [s'|] eqn:E.
      * split.
        -- intros [= <-]. exists response. auto.
        -- intros (r & [= <-] & Hr). congruence.
      * split; [discriminate|]. intros (r & [= <-] & Hr). congruence.
    + split; [discriminate|]. intros (r & Hr & _). discriminate.
  - intros e ->. reflexivity.
  - intros response -> ->. reflexivity.
Qed.

Lemma pair_single_request_and_outcome_witness :
  (value_of (run (pair sample_settings)
               (fun _ => Ok (retrieve_response (report_reply (boiler_report 0)))))).1
  = Err InvalidPairResponse.
Proof.
  destruct (pair_single_request_and_outcome sample_settings
              (fun _ => Ok (retrieve_response (report_reply (boiler_report 0)))))
    as (_ & _ & _ & _ & Hinvalid).
  exact (Hinvalid _ eq_refl eq_refl).
Defined.

(** X4. [testConnection] never throws and changes nothing: it sends one
    retrieve asking for the STATUS block only and returns [true] exactly
    when the transport delivered a decodable answer, whatever that answer
    says (a refusal included), and [false] on a transport failure. *)
Theorem testConnection_is_a_liveness_probe (this : ConnectionSettings) (net : Network) :
  run (testConnection this) net =
  ([Sent (ipAddress this) "/retrieve"
      (retrieve_message 1 (auth_of this) MessageInfo.STATUS)],
   (Ok (is_ok (net O)), this),
   next net).
Proof.
  unfold testConnection, retrieve, request. prog_simpl.
  destruct (net O); reflexivity.
Qed.

(** X5. [setTargetTemperature] leaves the settings alone; it passes a
    transport failure on, throws the authorization-denied error exactly
    when the update reply's [acc_status] is DENIED and the
    authorization-pending error exactly when it is PENDING, and resolves in
    every other case: also when the answer has no [update_reply] at all. *)
Theorem setTargetTemperature_outcome
    (t : Q) (this : ConnectionSettings) (net : Network) :
  let out := run (setTargetTemperature t this) net in
  (value_of out).2 = this
  /\ (forall e, net O = Err e -> (value_of out).1 = Err e)
  /\ (forall response,
        net O = Ok response ->
        let acc := update_reply response ≫= update_acc_status in
        ((value_of out).1 = Err AuthorizationDenied <-> acc = Some AuthStatus.DENIED)
        /\ ((value_of out).1 = Err AuthorizationPending
            <-> acc = Some AuthStatus.PENDING)
        /\ (acc <> Some AuthStatus.DENIED -> acc <> Some AuthStatus.PENDING ->
            (value_of out).1 = Ok tt)
        /\ (update_reply response = None -> (value_of out).1 = Ok tt)).
Proof.
  cbv zeta. rewrite setTargetTemperature_run. unfold value_of. cbn [fst snd].
  split; [destruct (net O); repeat case_bool_decide; reflexivity|].
  split; [intros e ->; reflexivity|].
  intros response ->.
  unfold AuthStatus.DENIED, AuthStatus.PENDING in *.
  repeat case_bool_decide; cbn [fst].
  - split; [tauto|]. split; [split; [discriminate|congruence]|].
    split; [tauto|]. intros Hn. rewrite Hn in *. discriminate.
  - split; [split; [discriminate|congruence]|]. split; [tauto|].
    split; [tauto|]. intros Hn. rewrite Hn in *. discriminate.
  - split; [split; [discriminate|congruence]|].
    split; [split; [discriminate|congruence]|]. auto.
Qed.

Lemma setTargetTemperature_outcome_witness :
  (value_of (run (setTargetTemperature 21 sample_settings)
               (fun _ => Ok (pair_response AuthStatus.DENIED)))).1 = Ok tt.
Proof.
  destruct (setTargetTemperature_outcome 21 sample_settings
              (fun _ => Ok (pair_response AuthStatus.DENIED)))
    as (_ & _ & Hok).
  destruct (Hok _ eq_refl) as (_ & _ & _ & Hmissing).
  exact (Hmissing eq_refl).
Defined.

(** X8. [getData] leaves the settings alone, passes a transport failure
    on, and throws the invalid-retrieve-response error on a decoded answer
    without [retrieve_reply].  A snapshot it returns always has the three
    boiler flags defined, [flameOn] being the disjunction of the other two;
    from a reply without a report block the flags are all false and room
    temperature, outside temperature and water pressure are undefined. *)
Theorem getData_edges (this : ConnectionSettings) (net : Network) :
  let out := run (getData this) net in
  (value_of out).2 = this
  /\ (forall e, net O = Err e -> (value_of out).1 = Err e)
  /\ (forall response,
        net O = Ok response -> retrieve_reply response = None ->
        (value_of out).1 = Err InvalidRetrieveResponse)
  /\ (forall data,
        (value_of out).1 = Ok data ->
        exists b h, boilerHeating data = Some b
                    /\ hotWaterActive data = Some h
                    /\ flameOn data = Some (b || h))
  /\ (forall response reply data,
        net O = Ok response -> retrieve_reply response = Some reply ->
        report reply = None ->
        (value_of out).1 = Ok data ->
        data = {| deviceId := status reply ≫= device_id;
                  roomTemperature := None;
                  targetTemperature := control reply ≫= ch_mode_temp;
                  outsideTemperature := None;
                  waterPressure := None;
                  boilerHeating := Some false;
                  hotWaterActive := Some false;
                  flameOn := Some false |}).
Proof.
  cbv zeta. rewrite getData_run. unfold value_of. cbn [fst snd].
  split.
  { destruct (net O) as [response|]; [|reflexivity].
    destruct (retrieve_reply response); [|reflexivity].
    repeat case_bool_decide; reflexivity. }
  split; [intros e ->; reflexivity|].
  split; [intros response -> ->; reflexivity|].
  split.
  - intros data. destruct (net O) as [response|]; [|discriminate].
    destruct (retrieve_reply response); [|discriminate].
    repeat case_bool_decide; try discriminate.
    intros [= <-]. cbn. eauto.
  - intros response reply data -> -> Hrep.
    repeat case_bool_decide; try discriminate.
    rewrite Hrep. intros [= <-]. reflexivity.
Qed.

Lemma getData_edges_witness :
  (value_of (run (getData sample_settings)
               (fun _ => Ok (pair_response AuthStatus.GRANTED)))).1
  = Err InvalidRetrieveResponse.
Proof.
  destruct (getData_edges sample_settings
              (fun _ => Ok (pair_response AuthStatus.GRANTED)))
    as (_ & _ & Hinvalid & _).
  exact (Hinvalid _ eq_refl eq_refl).
Defined.

Lemma Math_round_monotone (x y : Q) : (x <= y)%Q -> Math_round x <= Math_round y.
Proof.
  intros H. unfold Math_round. apply Qfloor_resp_le. lra.
Qed.

Lemma Math_round_Z (k : Z) : Math_round (inject_Z k) = k.
Proof.
  unfold Math_round, Qfloor, Qplus, inject_Z; cbn.
  symmetry. apply (Z.div_unique _ _ _ 1); lia.
Qed.

(** X9. The clamp-and-round transform is monotone; it sends every input up
    to 4 to 4 and every input from 27 on to 27, and leaves every multiple of
    one half between 4 and 27 as it is. *)
Theorem clampAndRound_monotone_saturating (t u : Q) :
  ((t <= u)%Q -> (clampAndRound t <= clampAndRound u)%Q)
  /\ ((t <= 4)%Q -> (clampAndRound t == 4)%Q)
  /\ ((27 <= t)%Q -> (clampAndRound t == 27)%Q)
  /\ (forall k : Z, 8 <= k <= 54 ->
        (clampAndRound (inject_Z k / 2) == inject_Z k / 2)%Q).
Proof.
  split; [|split; [|split]].
  - intros H. rewrite !clampAndRound_half, half_le.
    assert (Math_round (t * 2) <= Math_round (u * 2))
      by (apply Math_round_monotone; lra).
    lia.
  - intros H. rewrite clampAndRound_half.
    assert (Math_round (t * 2) <= Math_round (inject_Z 8)) as Hm
      by (apply Math_round_monotone; change (inject_Z 8) with 8%Q; lra).
    rewrite Math_round_Z in Hm.
    replace (Z.max 8 (Z.min 54 (Math_round (t * 2)))) with 8 by lia.
    reflexivity.
  - intros H. rewrite clampAndRound_half.
    assert (Math_round (inject_Z 54) <= Math_round (t * 2)) as Hm
      by (apply Math_round_monotone; change (inject_Z 54) with 54%Q; lra).
    rewrite Math_round_Z in Hm.
    replace (Z.max 8 (Z.min 54 (Math_round (t * 2)))) with 54 by lia.
    reflexivity.
  - intros k Hk. rewrite clampAndRound_half, Math_round_half.
    replace (Z.max 8 (Z.min 54 k)) with k by lia. reflexivity.
Qed.

Lemma clampAndRound_monotone_saturating_witness :
  (clampAndRound (-3) == 4)%Q /\ (clampAndRound (1000 # 7) == 27)%Q.
Proof.
  destruct (clampAndRound_monotone_saturating (-3) 0) as (_ & Hlow & _).
  destruct (clampAndRound_monotone_saturating (1000 # 7) 0) as (_ & _ & Hhigh & _).
  split; [apply Hlow|apply Hhigh]; vm_compute; discriminate.
Defined.

End ApiOutcomes.

Section KeepsSettings.
Import AtagOneApi.

Lemma keeps_settings_bind {A B} (m : prog ConnectionSettings A)
    (f : A -> prog ConnectionSettings B) :
  keeps_settings m -> (forall a, keeps_settings (f a)) -> keeps_settings (m ≫= f).
Proof.
  intros Hm Hf this net. rewrite run_mbind.
  destruct (Hm this net) as [Ht Hs].
  destruct (value_of (run (m this) net)) as [[a|e] s'] eqn:E;
    cbn [snd] in Hs; subst s'.
  - destruct (Hf a this (run (m this) net).2) as [Ht' Hs'].
    unfold trace_of, value_of in *. cbn [fst snd].
    split; [apply Forall_app; split; assumption|assumption].
  - unfold trace_of, value_of in *. cbn [fst snd]. split; [assumption|reflexivity].
Qed.

Lemma keeps_settings_try_catch {A} (m : prog ConnectionSettings A)
    (h : string -> prog ConnectionSettings A) :
  keeps_settings m -> (forall e, keeps_settings (h e)) -> keeps_settings (try_catch m h).
Proof.
  intros Hm Hh this net. unfold try_catch. rewrite run_io_bind.
  destruct (Hm this net) as [Ht Hs].
  unfold trace_of, value_of in *.
  destruct (run (m this) net) as [[t [[a|e] s']] net']; cbn [fst snd] in *; subst s'.
  - rewrite app_nil_r. split; [assumption|reflexivity].
  - destruct (Hh e this net') as [Ht' Hs'].
    split; [apply Forall_app; split; assumption|assumption].
Qed.

Lemma keeps_settings_ret {A} (a : A) : keeps_settings (mret a).
Proof. intros this net. split; [constructor|reflexivity]. Qed.

Lemma keeps_settings_throw {A} (e : string) : keeps_settings (@throw _ A e).
Proof. intros this net. split; [constructor|reflexivity]. Qed.

Lemma keeps_settings_perform (e : Effect) : keeps_settings (perform e).
Proof. intros this net. split; [repeat constructor|reflexivity]. Qed.

Lemma keeps_settings_pair : keeps_settings pair.
Proof.
  intros this net. rewrite pair_run. unfold trace_of, value_of. cbn [fst snd].
  split; [|reflexivity]. repeat constructor.
Qed.

Lemma keeps_settings_retrieve (flags : option Z) : keeps_settings (retrieve flags).
Proof.
  intros this net. unfold retrieve, request. prog_simpl.
  destruct (net O); split; try reflexivity; repeat constructor.
Qed.

Lemma keeps_settings_getData : keeps_settings getData.
Proof.
  intros this net. rewrite getData_snapshot. unfold trace_of, value_of. cbn [fst snd].
  split; [|reflexivity]. repeat constructor.
Qed.

Lemma keeps_settings_setTargetTemperature (t : Q) :
  keeps_settings (setTargetTemperature t).
Proof.
  intros this net. rewrite setTargetTemperature_run.
  unfold trace_of, value_of. cbn [fst snd].
  split; [repeat constructor|].
  destruct (net O); repeat case_bool_decide; reflexivity.
Qed.

Lemma keeps_settings_waitLoop (n : nat) (intervalMs : Z) (onStatus : bool) :
  keeps_settings (waitLoop n intervalMs onStatus).
Proof.
  induction n as [|n IH]; cbn [waitLoop]; [apply keeps_settings_throw|].
  apply keeps_settings_bind; [apply keeps_settings_pair|]. intros status.
  apply keeps_settings_bind.
  { destruct onStatus; [apply keeps_settings_perform|apply keeps_settings_ret]. }
  intros _.
  destruct (status =? AuthStatus.GRANTED); [apply keeps_settings_ret|].
  destruct (status =? AuthStatus.DENIED); [apply keeps_settings_ret|].
  apply keeps_settings_bind; [apply keeps_settings_perform|]. intros _. exact IH.
Qed.

(** X6. No method of the client changes the connection settings, and every
    request a method makes goes to the configured host with the stored
    credentials and sequence number 1: this holds for [pair], [retrieve],
    [getData], [setTargetTemperature], [testConnection] and, however many
    attempts it makes, [waitForAuthorization]. *)
Theorem api_methods_keep_settings :
  keeps_settings pair
  /\ (forall flags, keeps_settings (retrieve flags))
  /\ keeps_settings getData
  /\ (forall t, keeps_settings (setTargetTemperature t))
  /\ keeps_settings testConnection
  /\ (forall maxAttempts intervalMs onStatus,
        keeps_settings (waitForAuthorization maxAttempts intervalMs onStatus)).
Proof.
  split; [apply keeps_settings_pair|].
  split; [apply keeps_settings_retrieve|].
  split; [apply keeps_settings_getData|].
  split; [apply keeps_settings_setTargetTemperature|].
  split.
  - unfold testConnection. apply keeps_settings_try_catch.
    + apply keeps_settings_bind; [apply keeps_settings_retrieve|].
      intros _. apply keeps_settings_ret.
    + intros _. apply keeps_settings_ret.
  - intros maxAttempts intervalMs onStatus. apply keeps_settings_waitLoop.
Qed.

End KeepsSettings.

Section WaitEdges.
Import AtagOneApi.

Lemma pair_run_outcome (this : ConnectionSettings) (net : Network) :
  run (pair this) net = ([pair_request this], (pair_outcome this (net O), this), next net).
Proof. unfold pair_outcome, value_of. rewrite !pair_run. reflexivity. Qed.

Lemma waitLoop_abort (this : ConnectionSettings) (intervalMs : Z) (onStatus : bool)
    (n : nat) (net : Network) (e : string) :
  pair_outcome this (net O) = Err e ->
  (run (waitLoop (S n) intervalMs onStatus this) net).1
  = ([pair_request this], (Err e, this)).
Proof.
  intros He. cbn [waitLoop]. rewrite run_mbind, pair_run_outcome.
  unfold value_of, trace_of. cbn [fst snd]. rewrite He. reflexivity.
Qed.

Lemma waitLoop_aborts_after (this : ConnectionSettings) (intervalMs : Z)
    (onStatus : bool) (pre : list Z) (e : string) :
  forall (n : nat) (net : Network),
    Forall (fun s => ~ terminal s) pre ->
    (length pre < n)%nat ->
    (forall i s, pre !! i = Some s -> answers_status (net i) s) ->
    pair_outcome this (net (length pre)) = Err e ->
    (run (waitLoop n intervalMs onStatus this) net).1 =
    (flat_map (attempt_events this intervalMs onStatus) pre ++ [pair_request this],
     (Err e, this)).
Proof.
  induction pre as [|s pre IH]; intros n net Hpre Hlen Hnet He.
  - destruct n as [|n]; [cbn in Hlen; lia|].
    apply waitLoop_abort. exact He.
  - destruct n as [|n]; [cbn in Hlen; lia|].
    inversion Hpre as [|? ? Hs Hrest]; subst.
    rewrite (waitLoop_continue this intervalMs onStatus n net s);
      [|apply (Hnet O); reflexivity | assumption].
    specialize (IH n (next net) Hrest ltac:(cbn in Hlen; lia)
                  (fun i s' H => Hnet (S i) s' H) He).
    unfold trace_of, value_of. rewrite IH. cbn [fst snd flat_map].
    rewrite <- app_assoc. reflexivity.
Qed.

(** X7. [waitForAuthorization] with [maxAttempts] zero or negative throws
    the authorization-timeout error without any request.  When a pair call
    fails (transport failure or invalid reply) after attempts that all
    yielded non-final statuses, the wait ends at once with that error: no
    further pair call, no sleep and no callback follow the failed call. *)
Theorem waitForAuthorization_edges
    (this : ConnectionSettings) (maxAttempts intervalMs : Z) (onStatus : bool)
    (net : Network) :
  let out := run (waitForAuthorization (Some maxAttempts) (Some intervalMs)
                    onStatus this) net in
  (maxAttempts <= 0 -> out = ([], (Err AuthorizationTimeout, this), net))
  /\ (forall (pre : list Z) (e : string),
        Forall (fun s => ~ terminal s) pre ->
        (forall i s, pre !! i = Some s -> answers_status (net i) s) ->
        Z.of_nat (length pre) < maxAttempts ->
        pair_outcome this (net (length pre)) = Err e ->
        value_of out = (Err e, this)
        /\ trace_of out
           = flat_map (attempt_events this intervalMs onStatus) pre
               ++ [pair_request this]).
Proof.
  cbv zeta. unfold waitForAuthorization, default. cbn [from_option id].
  split.
  - intros Hle. replace (Z.to_nat maxAttempts) with O by lia. reflexivity.
  - intros pre e Hpre Hnet Hlen He.
    unfold value_of, trace_of.
    rewrite (waitLoop_aborts_after this intervalMs onStatus pre e
               (Z.to_nat maxAttempts) net Hpre ltac:(lia) Hnet He).
    split; reflexivity.
Qed.

Lemma waitForAuthorization_edges_witness :
  let out := run (waitForAuthorization (Some 5) (Some 2000) true sample_settings)
                 (pair_answers [1; 0]) in
  value_of out = (Err "Request timeout", sample_settings)
  /\ length (requests_of (trace_of out)) = 3%nat
  /\ sleeps_of (trace_of out) = [2000; 2000].
Proof.
  cbv zeta.
  destruct (waitForAuthorization_edges sample_settings 5 2000 true
              (pair_answers [1; 0])) as [_ Habort].
  destruct (Habort [1; 0] "Request timeout") as [Hv Ht].
  { repeat constructor; unfold terminal, AuthStatus.GRANTED, AuthStatus.DENIED; lia. }
  { intros i s Hi. unfold pair_answers. rewrite Hi. eexists. split; reflexivity. }
  { cbn. lia. }
  { reflexivity. }
  split; [exact Hv|]. rewrite Ht. split; reflexivity.
Defined.

End WaitEdges.

Section PollerMore.

Lemma requests_of_triggers (l : list FlowTrigger) :
  requests_of (map (fun c => Did (Trigger c)) l) = [].
Proof. induction l as [|c l IH]; [reflexivity|exact IH]. Qed.

(** X10. A poll cycle never throws: it makes exactly one request, the
    retrieve for CONTROL, REPORT and STATUS, and afterwards the device is
    available exactly when [getData] succeeded, whatever its availability
    was before; connection settings, timers and the value kept for the
    restoration are not touched. *)
Theorem pollData_always_resolves (d : Device) (net : Network) :
  let out := run (pollData d) net in
  let d' := (value_of out).2 in
  (value_of out).1 = Ok tt
  /\ requests_of (trace_of out)
     = [retrieve_message 1 (AtagOneApi.auth_of (api d)) 25]
  /\ out.2 = next net
  /\ available d' = is_ok (snapshot_of (api d) (net O))
  /\ api d' = api d
  /\ timeouts d' = timeouts d
  /\ intervals d' = intervals d
  /\ boostTimeout d' = boostTimeout d
  /\ previousTemperature d' = previousTemperature d.
Proof.
  cbv zeta. rewrite pollData_run. unfold value_of, trace_of. cbn [fst snd].
  split; [reflexivity|].
  split; [unfold retrieve_request; cbn; rewrite requests_of_triggers; reflexivity|].
  split; [reflexivity|].
  unfold after_poll.
  destruct (snapshot_of (api d) (net O)); [destruct (available d) eqn:E|];
    cbn; auto 10.
Qed.

Lemma record_capability_other {A} (name name' : string) (f : A -> capval)
    (o : option A) (store : gmap string capval) :
  name <> name' ->
  record_capability name f o store !! name' = store !! name'.
Proof.
  intros Hne. destruct o; [apply lookup_insert_ne; assumption|reflexivity].
Qed.

Lemma record_capability_same {A} (name : string) (f : A -> capval)
    (o : option A) (store : gmap string capval) :
  record_capability name f o store !! name
  = match o with Some v => Some (f v) | None => store !! name end.
Proof. destruct o; [apply lookup_insert_eq|reflexivity]. Qed.

Lemma after_poll_capabilities (d : Device) (r : result Response) (data : ThermostatData) :
  snapshot_of (api d) r = Ok data ->
  capabilities (after_poll d r) = capabilities (after_update data d).
Proof.
  intros Hs. unfold after_poll. rewrite Hs. destruct (available d); reflexivity.
Qed.

Lemma successful_poll_capability
    (d : Device) (net : Network) (data : ThermostatData) :
  snapshot_of (api d) (net O) = Ok data ->
  capabilities (value_of (run (pollData d) net)).2
  = capabilities (after_update data d).
Proof.
  intros Hs. rewrite pollData_device. exact (after_poll_capabilities d (net O) data Hs).
Qed.



Lemma condition_run {A} (name : string) (f : capval -> A) (d : Device) (net : Network) :
  run ((v ← getCapabilityValue name; mret (f v)) d) net
  = ([], (Ok (f (default CapNull (capabilities d !! name))), d), net).
Proof. reflexivity. Qed.

(** X12. The condition cards read what the last successful poll wrote:
    right after a successful poll, [boiler_heating] holds exactly when bit
    3 (value 8) of the reported boiler status is set, and, when the report
    carries a room temperature, [temperature_above] with argument [x] holds
    exactly when that temperature is greater than [x].  Neither condition
    makes a request or changes the device. *)
Theorem conditions_after_successful_poll
    (d : Device) (net : Network) (response : Response) (reply : RetrieveReply)
    (x : Q) :
  net O = Ok response ->
  retrieve_reply response = Some reply ->
  retrieve_acc_status reply <> Some AuthStatus.DENIED ->
  retrieve_acc_status reply <> Some AuthStatus.PENDING ->
  let polled := run (pollData d) net in
  let d' := (value_of polled).2 in
  run (boilerHeatingCondition d') polled.2
    = ([], (Ok (Z.testbit (default 0 (report reply ≫= boiler_status)) 3), d'),
       polled.2)
  /\ forall room,
       report reply ≫= room_temp = Some room ->
       run (temperatureAboveCondition x d') polled.2
       = ([], (Ok (negb (Qle_bool room x)), d'), polled.2)
       /\ (negb (Qle_bool room x) = true <-> (x < room)%Q).
Proof.
  intros Hnet Hreply Hd Hp polled d'.
  assert (snapshot_of (api d) (net O)
          = Ok {| deviceId := status reply ≫= device_id;
                  roomTemperature := report reply ≫= room_temp;
                  targetTemperature := control reply ≫= ch_mode_temp;
                  outsideTemperature := report reply ≫= outside_temp;
                  waterPressure := report reply ≫= ch_water_pres;
                  boilerHeating :=
                    Some (Z.testbit (default 0 (report reply ≫= boiler_status)) 3);
                  hotWaterActive :=
                    Some (Z.testbit (default 0 (report reply ≫= boiler_status)) 2);
                  flameOn :=
                    Some (Z.testbit (default 0 (report reply ≫= boiler_status)) 3
                          || Z.testbit (default 0 (report reply ≫= boiler_status)) 2)
               |}) as Hs.
  { unfold snapshot_of, value_of. rewrite getData_run, Hnet, Hreply. cbn [fst snd].
    rewrite !bool_decide_eq_false_2 by assumption. reflexivity. }
  pose proof (successful_poll_capability d net _ Hs) as Hcaps.
  unfold after_update in Hcaps.
  cbn [capabilities roomTemperature targetTemperature waterPressure boilerHeating]
    in Hcaps.
  fold polled in Hcaps. fold d' in Hcaps.
  assert (capabilities d' !! "alarm_generic.boiler"
          = Some (CapBool (Z.testbit (default 0 (report reply ≫= boiler_status)) 3)))
    as Hboiler by (rewrite Hcaps; apply record_capability_same).
  assert (capabilities d' !! "measure_temperature"
          = match report reply ≫= room_temp with
            | Some v => Some (CapNum v)
            | None => capabilities d !! "measure_temperature"
            end) as Hroom.
  { rewrite Hcaps, !record_capability_other by discriminate.
    apply record_capability_same. }
  split.
  - unfold boilerHeatingCondition. rewrite condition_run, Hboiler. cbn [default from_option id].
    destruct (Z.testbit _ 3); reflexivity.
  - intros room Hr. rewrite Hr in Hroom. split.
    + unfold temperatureAboveCondition. rewrite condition_run, Hroom. reflexivity.
    + rewrite negb_true_iff. split.
      * intros Hle. apply Qnot_le_lt. intros Hc. apply Qle_bool_iff in Hc. congruence.
      * intros Hlt. destruct (Qle_bool room x) eqn:E; [|reflexivity].
        apply Qle_bool_iff in E. apply Qlt_not_le in Hlt. contradiction.
Qed.

Lemma conditions_after_successful_poll_witness :
  let net : Network :=
    fun _ => Ok (retrieve_response (report_reply (room_report (195 # 10) 12))) in
  let polled := run (pollData (fresh sample_settings ∅)) net in
  (value_of (run (boilerHeatingCondition (value_of polled).2) polled.2)).1 = Ok true
  /\ (value_of (run (temperatureAboveCondition 19 (value_of polled).2) polled.2)).1
     = Ok true.
Proof.
  cbv zeta.
  destruct (conditions_after_successful_poll (fresh sample_settings ∅)
              (fun _ => Ok (retrieve_response (report_reply (room_report (195 # 10) 12))))
              (retrieve_response (report_reply (room_report (195 # 10) 12)))
              (report_reply (room_report (195 # 10) 12)) 19
              eq_refl eq_refl ltac:(discriminate) ltac:(discriminate))
    as [Hboiler Htemp].
  destruct (Htemp (195 # 10)%Q eq_refl) as [Hrun _].
  split; [rewrite Hboiler|rewrite Hrun]; reflexivity.
Defined.

Lemma onDeleted_state (d : Device) (net : Network) :
  run (onDeleted d) net = ([], (Ok tt, deleted d), net).
Proof.
  unfold onDeleted, stopPolling, clearInterval, clearTimeout, deleted.
  destruct d. prog_simpl.
  destruct pollInterval0, boostTimeout0; reflexivity.
Qed.

Lemma step_not_poll_boiler (w : World) (i : Input) :
  is_poll i = false ->
  triggers_of (history (step w i)) = triggers_of (history w)
  /\ prevBoilerHeating (device (step w i)) = prevBoilerHeating (device w).
Proof.
  intros Hi. destruct i as [|t|t dur|h|]; try discriminate; unfold step, handler.
  - rewrite setTemperatureAction_run.
    destruct (update_outcome _); cbn [history device snd];
      rewrite triggers_of_app, app_nil_r; auto.
  - rewrite setTemperatureDurationAction_run.
    destruct (update_outcome _); cbn [history device snd];
      rewrite triggers_of_app, app_nil_r; auto.
  - fold (handler (TimeoutElapsed h)). rewrite TimeoutElapsed_run.
    destruct (timeouts (device w) !! h);
      [destruct (previousTemperature (device w)); [destruct (update_outcome _)|]|];
      cbn [history device snd]; rewrite triggers_of_app, app_nil_r; auto.
  - rewrite onDeleted_state. cbn [history device snd].
    rewrite app_nil_r. auto.
Qed.

(** X13. Flow cards are triggered by poll cycles only: a set-temperature
    action, a duration action, an elapsed timeout and the deletion of the
    device trigger none, and leave the four values kept for change
    detection as they were, so that the next poll still compares with what
    the last successful poll fetched. *)
Theorem only_polls_trigger_cards (w : World) (i : Input) :
  is_poll i = false ->
  triggers_of (history (step w i)) = triggers_of (history w)
  /\ prevRoomTemp (device (step w i)) = prevRoomTemp (device w)
  /\ prevTargetTemp (device (step w i)) = prevTargetTemp (device w)
  /\ prevPressure (device (step w i)) = prevPressure (device w)
  /\ prevBoilerHeating (device (step w i)) = prevBoilerHeating (device w).
Proof.
  intros Hi. destruct i as [|t|t dur|h|]; try discriminate; unfold step, handler.
  - rewrite setTemperatureAction_run.
    destruct (update_outcome _); cbn [history device snd];
      rewrite triggers_of_app, app_nil_r; auto.
  - rewrite setTemperatureDurationAction_run.
    destruct (update_outcome _); cbn [history device snd];
      rewrite triggers_of_app, app_nil_r; auto.
  - fold (handler (TimeoutElapsed h)). rewrite TimeoutElapsed_run.
    destruct (timeouts (device w) !! h);
      [destruct (previousTemperature (device w)); [destruct (update_outcome _)|]|];
      cbn [history device snd]; rewrite triggers_of_app, app_nil_r; auto.
  - rewrite onDeleted_state. cbn [history device snd].
    rewrite app_nil_r. auto.
Qed.

Lemma only_polls_trigger_cards_witness :
  triggers_of (history (step (fresh_world accepting) (RunSetTemperature 21)))
  = triggers_of (history (fresh_world accepting)).
Proof.
  exact (proj1 (only_polls_trigger_cards (fresh_world accepting)
                  (RunSetTemperature 21) eq_refl)).
Defined.

Lemma alternating_snoc (l : list bool) (b : bool) :
  alternating (l ++ [b])
  = alternating l && match last l with
                     | Some a => negb (eqb a b)
                     | None => true
                     end.
Proof.
  induction l as [|a [|c r] IH]; [reflexivity|cbn; rewrite andb_true_r; reflexivity|].
  change (alternating ((a :: c :: r) ++ [b]))
    with (negb (eqb a c) && alternating ((c :: r) ++ [b])).
  rewrite IH.
  change (alternating (a :: c :: r)) with (negb (eqb a c) && alternating (c :: r)).
  change (last (a :: c :: r)) with (last (c :: r)).
  rewrite andb_assoc. reflexivity.
Qed.

Lemma omap_polarity_diff (r t p : option Q) (b : option bool) (data : ThermostatData) :
  omap boiler_polarity (diff_triggers r t p b data)
  = match boilerHeating data with
    | Some v => if differsB b v then [v] else []
    | None => []
    end.
Proof.
  unfold diff_triggers, room_triggers, target_triggers, pressure_triggers,
    boiler_triggers.
  rewrite !omap_app.
  destruct (roomTemperature data) as [x|]; [destruct (differsQ r x)|];
  destruct (targetTemperature data) as [y|]; try destruct (differsQ t y);
  destruct (waterPressure data) as [z|]; try destruct (differsQ p z);
  destruct (boilerHeating data) as [u|]; try destruct (differsB b u);
  try destruct u; reflexivity.
Qed.

Lemma step_boiler_consistent (w : World) (i : Input) :
  boiler_consistent w -> boiler_consistent (step w i).
Proof.
  intros [Halt Hlast]. unfold boiler_consistent, boiler_events in *.
  destruct (is_poll i) eqn:Hi.
  - destruct i; try discriminate. rewrite step_PollTick. cbn [history device].
    rewrite triggers_of_app, omap_app.
    unfold retrieve_request. cbn [triggers_of flat_map app].
    fold (triggers_of (map (fun c => Did (Trigger c))
            (poll_triggers (device w) (network w O)))).
    rewrite triggers_of_map. unfold poll_triggers, after_poll.
    destruct (snapshot_of (api (device w)) (network w O)) as [data|e].
    + rewrite omap_polarity_diff.
      assert (prevBoilerHeating
                (if available (device w) then after_update data (device w)
                 else with_availability true None (after_update data (device w)))
              = record (boilerHeating data) (prevBoilerHeating (device w))) as ->
        by (destruct (available (device w)); reflexivity).
      destruct (boilerHeating data) as [v|]; cbn [record].
      * destruct (differsB (prevBoilerHeating (device w)) v) eqn:Ed.
        -- rewrite alternating_snoc, Halt, last_snoc. cbn [andb].
           split; [|intros b [= <-]; reflexivity].
           destruct (last (omap boiler_polarity (triggers_of (history w))))
             as [a|] eqn:El; [|reflexivity].
           rewrite (Hlast a eq_refl) in Ed. cbn in Ed. exact Ed.
        -- rewrite app_nil_r. split; [exact Halt|].
           intros b Hb. specialize (Hlast b Hb). rewrite Hlast in Ed.
           cbn in Ed. apply negb_false_iff, eqb_prop in Ed. congruence.
      * rewrite app_nil_r. split; assumption.
    + cbn. rewrite app_nil_r. split; assumption.
  - destruct (step_not_poll_boiler w i Hi) as [Ht Hp].
    rewrite Ht, Hp. split; assumption.
Qed.

(** X14. Over any sequence of polls, actions, elapsed timeouts and
    deletions of a new device, the [boiler_started] and [boiler_stopped]
    cards alternate: none is triggered twice in a row.  The last one
    triggered, if any, agrees with the boiler-heating flag the device keeps
    for change detection. *)
Theorem boiler_cards_alternate
    (settings : ConnectionSettings) (store : gmap string capval)
    (net : Network) (inputs : list Input) :
  let w := steps {| device := fresh settings store; network := net; history := [] |}
                 inputs in
  alternating (boiler_events w) = true
  /\ forall b, last (boiler_events w) = Some b ->
               prevBoilerHeating (device w) = Some b.
Proof.
  cbv zeta.
  assert (boiler_consistent
            {| device := fresh settings store; network := net; history := [] |})
    as Hinit by (split; [reflexivity|discriminate]).
  revert Hinit.
  generalize {| device := fresh settings store; network := net; history := [] |}.
  induction inputs as [|i inputs IH]; intros w Hw; [exact Hw|].
  cbn [steps fold_left]. apply IH, step_boiler_consistent, Hw.
Qed.

(** X15. The set-temperature action sends the clamped and rounded value to
    the thermostat and, when the update is accepted, writes the value as
    given (not clamped) to [target_temperature].  When the update fails it
    throws that error and changes nothing: the capability keeps its value. *)
Theorem setTemperatureAction_outcome (t : Q) (d : Device) (net : Network) :
  let out := run (setTemperatureAction t d) net in
  trace_of out = [update_request d t]
  /\ (value_of out).1 = update_outcome (net O)
  /\ (forall e, update_outcome (net O) = Err e -> (value_of out).2 = d)
  /\ (is_ok (update_outcome (net O)) = true ->
      capabilities (value_of out).2
      = <["target_temperature" := CapNum t]> (capabilities d)
      /\ target_capability (value_of out).2 = CapNum t).
Proof.
  cbv zeta. rewrite setTemperatureAction_run. unfold trace_of, value_of. cbn [fst snd].
  split; [reflexivity|].
  destruct (update_outcome (net O)) as [[]|e]; cbn [fst snd].
  - split; [reflexivity|]. split; [discriminate|]. intros _.
    split; [reflexivity|].
    unfold target_capability. cbn [capabilities with_capabilities].
    rewrite lookup_insert_eq. reflexivity.
  - split; [reflexivity|]. split; [reflexivity|discriminate].
Qed.

Lemma setTemperatureAction_outcome_witness :
  (value_of (run (setTemperatureAction 30 (fresh sample_settings ∅)) unreachable)).2
  = fresh sample_settings ∅.
Proof.
  destruct (setTemperatureAction_outcome 30 (fresh sample_settings ∅) unreachable)
    as (_ & _ & Hfail & _).
  exact (Hfail "Request timeout" eq_refl).
Defined.

(** X16. When the update of a duration action fails, the action throws
    that error after having overwritten the value kept for the restoration
    with the current [target_temperature]; it schedules nothing and cancels
    nothing: the timer table, [boostTimeout] and the capabilities are as
    before, so a restoration that was pending stays pending. *)
Theorem setTemperatureDurationAction_failure
    (t dur : Q) (d : Device) (net : Network) (e : string) :
  update_outcome (net O) = Err e ->
  let out := run (setTemperatureDurationAction t dur d) net in
  let d' := (value_of out).2 in
  (value_of out).1 = Err e
  /\ trace_of out = [update_request d t]
  /\ previousTemperature d' = Some (target_capability d)
  /\ timeouts d' = timeouts d
  /\ boostTimeout d' = boostTimeout d
  /\ next_handle d' = next_handle d
  /\ capabilities d' = capabilities d.
Proof.
  intros He. cbv zeta. rewrite setTemperatureDurationAction_run, He.
  unfold trace_of, value_of. cbn. auto 10.
Qed.

Lemma setTemperatureDurationAction_failure_witness :
  let out := run (setTemperatureDurationAction 22 30 (device at_18_degrees))
                 unreachable in
  (value_of out).1 = Err "Request timeout"
  /\ timeouts (value_of out).2 = timeouts (device at_18_degrees)
  /\ previousTemperature (value_of out).2
     = Some (target_capability (device at_18_degrees)).
Proof.
  cbv zeta.
  destruct (setTemperatureDurationAction_failure 22 30 (device at_18_degrees)
              unreachable "Request timeout" eq_refl)
    as (Hv & _ & Hp & Ht & _).
  split; [exact Hv|]. split; [exact Ht|exact Hp].
Defined.

(** X17. A timeout that elapses for a handle that is not pending does
    nothing.  For a pending handle the timer is consumed whatever happens
    next: when the restoring update fails the error is thrown, the
    capability keeps the override value and nothing is scheduled again;
    and when no value was ever kept for the restoration nothing is sent. *)
Theorem restoration_edges (h : nat) (d : Device) (net : Network) :
  let out := run (handler (TimeoutElapsed h) d) net in
  let d' := (value_of out).2 in
  (timeouts d !! h = None -> out = ([], (Ok tt, d), net))
  /\ (is_Some (timeouts d !! h) ->
      timeouts d' = delete h (timeouts d)
      /\ boostTimeout d' = boostTimeout d
      /\ next_handle d' = next_handle d
      /\ (previousTemperature d = None ->
          trace_of out = [] /\ capabilities d' = capabilities d)
      /\ (forall previous e,
            previousTemperature d = Some previous ->
            update_outcome (net O) = Err e ->
            (value_of out).1 = Err e
            /\ trace_of out = [update_request d (to_number previous)]
            /\ capabilities d' = capabilities d)).
Proof.
  cbv zeta. rewrite TimeoutElapsed_run. unfold trace_of, value_of.
  split.
  - intros ->. reflexivity.
  - intros [v ->].
    destruct (previousTemperature d) as [previous|].
    + destruct (update_outcome (net O)) as [[]|e0] eqn:E; cbn [fst snd];
        (split; [reflexivity|]); (split; [reflexivity|]);
        (split; [reflexivity|]); (split; [discriminate|]);
        intros p e [= <-] He; [discriminate|].
      injection He as <-. auto.
    + cbn [fst snd]. do 3 (split; [reflexivity|]).
      split; [auto|]. intros p e Hp. discriminate.
Qed.

Lemma restoration_edges_witness :
  let w := step at_18_degrees (RunSetTemperatureDuration 22 30) in
  run (handler (TimeoutElapsed 7) (device w)) (network w)
  = ([], (Ok tt, device w), network w).
Proof.
  cbv zeta.
  destruct (restoration_edges 7
              (device (step at_18_degrees (RunSetTemperatureDuration 22 30)))
              (network (step at_18_degrees (RunSetTemperatureDuration 22 30))))
    as [Hidle _].
  apply Hidle. reflexivity.
Defined.

Lemma startPolling_run (secs : Q) (d : Device) (net : Network) :
  run (startPolling secs d) net = ([], (Ok tt, polling secs d), net).
Proof.
  unfold startPolling, stopPolling, setInterval, clearInterval, polling.
  destruct d. prog_simpl. destruct pollInterval0; reflexivity.
Qed.

Lemma stopPolling_run (d : Device) (net : Network) :
  run (stopPolling d) net
  = ([], (Ok tt,
          match pollInterval d with
          | Some h =>
              with_pollInterval None
                (with_timers (timeouts d) (delete h (intervals d)) (next_handle d) d)
          | None => d
          end), net).
Proof.
  unfold stopPolling, clearInterval.
  destruct d. prog_simpl. destruct pollInterval0; reflexivity.
Qed.

Lemma polling_intervals (secs : Q) (d : Device) :
  polling_ok d ->
  intervals (polling secs d) = {[ next_handle d := (secs * 1000)%Q ]}.
Proof.
  intros Hok. unfold polling. cbn [intervals].
  apply map_eq. intros h.
  destruct (decide (h = next_handle d)) as [->|Hne].
  - rewrite lookup_insert_eq, lookup_singleton_eq. reflexivity.
  - rewrite lookup_insert_ne, lookup_singleton_ne by congruence.
    destruct (pollInterval d) as [p|] eqn:Ep.
    + destruct (decide (p = h)) as [->|Hp];
        [apply lookup_delete_eq|rewrite lookup_delete_ne by assumption].
      destruct (intervals d !! h) eqn:Eh; [|reflexivity].
      specialize (Hok h ltac:(eauto)). congruence.
    + destruct (intervals d !! h) eqn:Eh; [|reflexivity].
      specialize (Hok h ltac:(eauto)). congruence.
Qed.

Lemma polling_polling_ok (secs : Q) (d : Device) :
  polling_ok d -> polling_ok (polling secs d).
Proof.
  intros Hok h [v Hv]. rewrite (polling_intervals secs d Hok) in Hv.
  apply lookup_singleton_Some in Hv as [<- _]. reflexivity.
Qed.

(** X18. [startPolling] never leaks an interval: on a device whose running
    intervals are all the one in [pollInterval], it leaves exactly one
    interval running, the new one, with a delay of a thousand times the
    given seconds, without sending anything and without touching the
    pending timeouts; [stopPolling] afterwards leaves none and clears
    [pollInterval]. *)
Theorem startPolling_replaces_interval (secs : Q) (d : Device) (net : Network) :
  polling_ok d ->
  let out := run (startPolling secs d) net in
  let d' := (value_of out).2 in
  let stopped := (value_of (run (stopPolling d') net)).2 in
  trace_of out = []
  /\ (value_of out).1 = Ok tt
  /\ intervals d' = {[ next_handle d := (secs * 1000)%Q ]}
  /\ pollInterval d' = Some (next_handle d)
  /\ polling_ok d'
  /\ timeouts d' = timeouts d
  /\ boostTimeout d' = boostTimeout d
  /\ intervals stopped = ∅
  /\ pollInterval stopped = None.
Proof.
  intros Hok. cbv zeta. rewrite startPolling_run.
  unfold trace_of, value_of. cbn [fst snd]. rewrite stopPolling_run. cbn [fst snd].
  split; [reflexivity|]. split; [reflexivity|].
  split; [apply polling_intervals, Hok|].
  split; [reflexivity|].
  split; [apply polling_polling_ok, Hok|].
  split; [reflexivity|]. split; [reflexivity|].
  cbn [pollInterval polling].
  split; [|reflexivity].
  cbn [intervals with_pollInterval with_timers].
  fold (intervals (polling secs d)).
  rewrite (polling_intervals secs d Hok). apply delete_singleton_eq.
Qed.

Lemma fresh_polling_ok (settings : ConnectionSettings) (store : gmap string capval) :
  polling_ok (fresh settings store).
Proof. intros h [v Hv]. cbn in Hv. rewrite lookup_empty in Hv. discriminate. Qed.

Lemma startPolling_replaces_interval_witness :
  let d := polling 30 (fresh sample_settings ∅) in
  intervals (value_of (run (startPolling 60 d) unreachable)).2
  = {[ next_handle d := (60 * 1000)%Q ]}.
Proof.
  cbv zeta.
  destruct (startPolling_replaces_interval 60 (polling 30 (fresh sample_settings ∅))
              unreachable
              (polling_polling_ok 30 _ (fresh_polling_ok sample_settings ∅)))
    as (_ & _ & Hi & _).
  exact Hi.
Defined.



Lemma onSettings_run (newSettings : Settings.DeviceSettings)
    (changedKeys : list string) (d : Device) (net : Network) :
  run (onSettings newSettings changedKeys d) net =
  ([], (Ok tt,
        let d1 := if connection_changed changedKeys
                  then with_api (AtagOneApi.updateSettings
                                   (settings_update newSettings) (api d)) d
                  else d in
        if includes changedKeys "poll_interval"
        then polling (Settings.poll_interval newSettings) d1
        else d1), net).
Proof.
  unfold onSettings, connection_changed, settings_update, when.
  fold (includes changedKeys "ip_address") (includes changedKeys "device_name")
       (includes changedKeys "email").
  destruct (includes changedKeys "ip_address" || includes changedKeys "device_name"
            || includes changedKeys "email");
    destruct (includes changedKeys "poll_interval");
    rewrite run_mbind; prog_simpl; rewrite ?startPolling_run; reflexivity.
Qed.

(** X20. [onSettings] sends nothing and never throws.  It never changes
    the MAC address of the client, also when [mac_address] is among the
    changed keys.  When none of [ip_address], [device_name], [email] is
    among them the connection settings are untouched; when one is, all
    three are taken from the new settings, an empty new value keeping the
    old one.  Polling is restarted, with the new interval, exactly when
    [poll_interval] is among the changed keys.  Pending timeouts and the
    capabilities are not touched. *)
Theorem onSettings_effects (newSettings : Settings.DeviceSettings)
    (changedKeys : list string) (d : Device) (net : Network) :
  let out := run (onSettings newSettings changedKeys d) net in
  let d' := (value_of out).2 in
  trace_of out = []
  /\ (value_of out).1 = Ok tt
  /\ macAddress (api d') = macAddress (api d)
  /\ api d'
     = (if connection_changed changedKeys
        then AtagOneApi.updateSettings (settings_update newSettings) (api d)
        else api d)
  /\ (connection_changed changedKeys = true ->
      ipAddress (api d')
      = (if String.eqb (Settings.ip_address newSettings) ""
         then ipAddress (api d) else Settings.ip_address newSettings)
      /\ deviceName (api d')
         = (if String.eqb (Settings.device_name newSettings) ""
            then deviceName (api d) else Settings.device_name newSettings)
      /\ email (api d')
         = (if String.eqb (Settings.email newSettings) ""
            then email (api d) else Settings.email newSettings))
  /\ (includes changedKeys "poll_interval" = false ->
      intervals d' = intervals d /\ pollInterval d' = pollInterval d)
  /\ (includes changedKeys "poll_interval" = true -> polling_ok d ->
      intervals d'
      = {[ next_handle d := (Settings.poll_interval newSettings * 1000)%Q ]})
  /\ timeouts d' = timeouts d
  /\ capabilities d' = capabilities d.
Proof.
  cbv zeta. rewrite onSettings_run. unfold trace_of, value_of. cbn [fst snd].
  split; [reflexivity|]. split; [reflexivity|].
  assert (macAddress (AtagOneApi.updateSettings (settings_update newSettings) (api d))
          = macAddress (api d)) as Hmac
    by (rewrite updateSettings_fields; reflexivity).
  assert (forall d1 : Device,
            intervals d1 = intervals d -> pollInterval d1 = pollInterval d ->
            next_handle d1 = next_handle d -> polling_ok d ->
            intervals (polling (Settings.poll_interval newSettings) d1)
            = {[ next_handle d := (Settings.poll_interval newSettings * 1000)%Q ]})
    as Hrestart.
  { intros d1 Hi Hp Hn Hok. rewrite polling_intervals, Hn; [reflexivity|].
    intros h Hh. rewrite Hi in Hh. rewrite Hp. apply Hok, Hh. }
  assert (ipAddress (AtagOneApi.updateSettings (settings_update newSettings) (api d))
          = (if String.eqb (Settings.ip_address newSettings) ""
             then ipAddress (api d) else Settings.ip_address newSettings)
          /\ deviceName (AtagOneApi.updateSettings (settings_update newSettings) (api d))
             = (if String.eqb (Settings.device_name newSettings) ""
                then deviceName (api d) else Settings.device_name newSettings)
          /\ email (AtagOneApi.updateSettings (settings_update newSettings) (api d))
             = (if String.eqb (Settings.email newSettings) ""
                then email (api d) else Settings.email newSettings)) as Hfields.
  { rewrite updateSettings_fields. cbn.
    destruct (String.eqb (Settings.ip_address newSettings) "");
      destruct (String.eqb (Settings.device_name newSettings) "");
      destruct (String.eqb (Settings.email newSettings) ""); auto. }
  destruct (connection_changed changedKeys) eqn:Ec;
    destruct (includes changedKeys "poll_interval") eqn:Ei; cbn zeta.
  - split; [exact Hmac|]. split; [reflexivity|]. split; [intros _; exact Hfields|].
    split; [discriminate|].
    split; [intros _ Hok; apply Hrestart; auto|]. auto.
  - split; [exact Hmac|]. split; [reflexivity|]. split; [intros _; exact Hfields|].
    split; [auto|]. split; [discriminate|]. auto.
  - split; [reflexivity|]. split; [reflexivity|]. split; [discriminate|].
    split; [discriminate|].
    split; [intros _ Hok; apply Hrestart; auto|]. auto.
  - split; [reflexivity|]. split; [reflexivity|]. split; [discriminate|].
    split; [auto|]. split; [discriminate|]. auto.
Qed.

Lemma onSettings_effects_witness :
  let d := fresh sample_settings ∅ in
  let d' := (value_of (run (onSettings sample_device_settings
                              ["mac_address"; "device_name"; "poll_interval"] d)
                           unreachable)).2 in
  ipAddress (api d')
    = (if String.eqb (Settings.ip_address sample_device_settings) ""
       then ipAddress (api d) else Settings.ip_address sample_device_settings)
  /\ deviceName (api d')
     = (if String.eqb (Settings.device_name sample_device_settings) ""
        then deviceName (api d) else Settings.device_name sample_device_settings)
  /\ macAddress (api d') = macAddress (api d)
  /\ intervals d'
     = {[ next_handle d := (Settings.poll_interval sample_device_settings * 1000)%Q ]}.
Proof.
  cbv zeta.
  destruct (onSettings_effects sample_device_settings
              ["mac_address"; "device_name"; "poll_interval"]
              (fresh sample_settings ∅) unreachable)
    as (_ & _ & Hmac & _ & Hconn & _ & Hpoll & _).
  destruct (Hconn eq_refl) as (Hip & Hname & _).
  split; [exact Hip|]. split; [exact Hname|]. split; [exact Hmac|].
  exact (Hpoll eq_refl (fresh_polling_ok sample_settings ∅)).
Defined.

Lemma diff_triggers_first (data : ThermostatData) :
  diff_triggers None None None None data = [].
Proof.
  unfold diff_triggers, room_triggers, target_triggers, pressure_triggers,
    boiler_triggers.
  destruct (roomTemperature data), (targetTemperature data),
    (waterPressure data), (boilerHeating data); reflexivity.
Qed.

Lemma run_modify {S} (f : S -> S) (s : S) (net : Network) :
  run (modify f s) net = ([], (Ok tt, f s), net).
Proof. reflexivity. Qed.

Lemma onInit_run (settings : Settings.DeviceSettings) (d : Device) (net : Network) :
  run (onInit settings d) net
  = run (pollData
           (polling (Settings.poll_interval settings)
              (with_api
                 (AtagOneApi.constructor
                    {| ipAddress := Settings.ip_address settings;
                       macAddress := Settings.mac_address settings;
                       deviceName := Settings.device_name settings;
                       email := Settings.email settings |}) d))) net.
Proof.
  unfold onInit. rewrite run_mbind, run_modify.
  unfold value_of, trace_of. cbn [fst snd app].
  rewrite run_mbind, startPolling_run. unfold value_of, trace_of. cbn [fst snd app].
  destruct (run (pollData _) net) as [[t x] n]. reflexivity.
Qed.

(** X21. [onInit] on a device that has no interval running and has kept
    no previous value never throws.  It makes exactly one request, a
    retrieve to the address in the settings carrying the e-mail address and
    the normalized MAC address of the settings, triggers no flow card,
    leaves exactly one polling interval of a thousand times [poll_interval]
    milliseconds, and marks the device available exactly when that first
    fetch succeeded. *)
Theorem onInit_effects (settings : Settings.DeviceSettings) (d : Device) (net : Network) :
  polling_ok d ->
  prevRoomTemp d = None -> prevTargetTemp d = None ->
  prevPressure d = None -> prevBoilerHeating d = None ->
  let out := run (onInit settings d) net in
  let d' := (value_of out).2 in
  (value_of out).1 = Ok tt
  /\ trace_of out
     = [Sent (Settings.ip_address settings) "/retrieve"
          (retrieve_message 1
             {| user_account := Settings.email settings;
                mac_address :=
                  AtagOneApi.normalizeMacAddress (Settings.mac_address settings) |}
             25)]
  /\ intervals d'
     = {[ next_handle d := (Settings.poll_interval settings * 1000)%Q ]}
  /\ pollInterval d' = Some (next_handle d)
  /\ available d' = is_ok (snapshot_of (api d') (net O)).
Proof.
  intros Hok Hr Ht Hp Hb. cbv zeta. rewrite onInit_run, pollData_run.
  unfold trace_of, value_of. cbn [fst snd].
  set (d1 := polling _ _).
  assert (intervals d1
          = {[ next_handle d := (Settings.poll_interval settings * 1000)%Q ]}) as Hi.
  { unfold d1. rewrite polling_intervals; [reflexivity|].
    intros h Hh. apply Hok, Hh. }
  assert (api (after_poll d1 (net O)) = api d1) as Hapi by apply after_poll_api.
  split; [reflexivity|].
  split.
  { unfold poll_triggers.
    replace (prevRoomTemp d1) with (@None Q) by (symmetry; exact Hr).
    replace (prevTargetTemp d1) with (@None Q) by (symmetry; exact Ht).
    replace (prevPressure d1) with (@None Q) by (symmetry; exact Hp).
    replace (prevBoilerHeating d1) with (@None bool) by (symmetry; exact Hb).
    destruct (snapshot_of (api d1) (net O)); [rewrite diff_triggers_first|];
      reflexivity. }
  rewrite Hapi. unfold after_poll.
  destruct (snapshot_of (api d1) (net O));
    [destruct (available d1) eqn:Ea|]; cbn; rewrite ?Ea; auto.
Qed.

Lemma onInit_effects_witness :
  let out := run (onInit sample_device_settings (fresh sample_settings ∅))
                 steady_pressure in
  triggers_of (trace_of out) = []
  /\ requests_of (trace_of out)
     = [retrieve_message 1
          {| user_account := "owner@example.org"; mac_address := "0A1B2C3D4E5F" |} 25].
Proof.
  cbv zeta.
  destruct (onInit_effects sample_device_settings (fresh sample_settings ∅)
              steady_pressure (fresh_polling_ok sample_settings ∅)
              eq_refl eq_refl eq_refl eq_refl)
    as (_ & Htrace & _).
  rewrite Htrace. split; reflexivity.
Defined.

End PollerMore.

Section Driver.

Lemma configure_run (data this : AtagOneDriver.PairingData) (net : Network) :
  run (AtagOneDriver.configure data this) net
  = ([pair_request (pairing_client data)],
     (match pair_outcome (pairing_client data) (net O) with
      | Ok status =>
          if status =? AuthStatus.GRANTED
          then Ok {| AtagOneDriver.success := true |}
          else if status =? AuthStatus.DENIED
          then Err AtagOneDriver.AuthorizationDeniedByThermostat
          else Err AtagOneDriver.PleasePressYes
      | Err e => Err e
      end, data),
     next net).
Proof.
  unfold pair_outcome, value_of. rewrite pair_run. cbn [fst snd].
  unfold AtagOneDriver.configure, pairing_client, on_object, pair_request,
    AtagOneApi.pair, AtagOneApi.request.
  destruct data as [ip mac name mail]. prog_simpl.
  destruct (net O) as [[[[acc]|] rr ur]|e]; prog_simpl; try reflexivity.
  destruct acc as [status|]; prog_simpl; [|reflexivity].
  destruct (Z.eqb_spec status AuthStatus.GRANTED) as [->|Hg]; [reflexivity|].
  destruct (Z.eqb_spec status AuthStatus.DENIED) as [->|Hd]; [reflexivity|].
  unfold AuthStatus.GRANTED, AuthStatus.DENIED in *.
  destruct status as [|[[]|[]|]|]; try reflexivity; congruence.
Qed.

Lemma pair_outcome_status (this : ConnectionSettings) (r : result Response) (s : Z) :
  pair_outcome this r = Ok s <-> answers_status r s.
Proof.
  unfold pair_outcome, value_of, answers_status. rewrite pair_run. cbn [fst snd].
  destruct r as [response|e].
  - destruct (pair_reply response ≫= pair_acc_status) as [s'|] eqn:E.
    + split.
      * intros [= <-]. exists response. auto.
      * intros (r & [= <-] & Hr). congruence.
    + split; [discriminate|]. intros (r & [= <-] & Hr). congruence.
  - split; [discriminate|]. intros (r & Hr & _). discriminate.
Qed.

(** X22. The [configure] handler of the driver stores the pairing data it
    is given, whatever the outcome, and makes exactly one pair request, for
    a client built from that data (hence with the normalized MAC address).
    It returns success exactly when the thermostat answers GRANTED; it
    throws the denied-by-thermostat error on DENIED, the press-YES error on
    every other status (NOT_AVAILABLE included), and passes on the error of
    a failed pair call. *)
Theorem configure_outcome (data this : AtagOneDriver.PairingData) (net : Network) :
  let out := run (AtagOneDriver.configure data this) net in
  trace_of out = [pair_request (pairing_client data)]
  /\ macAddress (pairing_client data)
     = AtagOneApi.normalizeMacAddress (AtagOneDriver.macAddress data)
  /\ (value_of out).2 = data
  /\ ((value_of out).1 = Ok {| AtagOneDriver.success := true |}
      <-> answers_status (net O) AuthStatus.GRANTED)
  /\ (forall r, (value_of out).1 = Ok r -> AtagOneDriver.success r = true)
  /\ (answers_status (net O) AuthStatus.DENIED ->
      (value_of out).1 = Err AtagOneDriver.AuthorizationDeniedByThermostat)
  /\ (forall s, answers_status (net O) s ->
        s <> AuthStatus.GRANTED -> s <> AuthStatus.DENIED ->
        (value_of out).1 = Err AtagOneDriver.PleasePressYes)
  /\ (forall e, pair_outcome (pairing_client data) (net O) = Err e ->
        (value_of out).1 = Err e).
Proof.
  cbv zeta. rewrite configure_run. unfold trace_of, value_of. cbn [fst snd].
  split; [reflexivity|]. split; [reflexivity|]. split; [reflexivity|].
  pose proof (pair_outcome_status (pairing_client data) (net O)) as Hst.
  destruct (pair_outcome (pairing_client data) (net O)) as [status|e0].
  - assert (forall s, answers_status (net O) s -> s = status) as Huniq
      by (intros s Hs; apply Hst in Hs; congruence).
    assert (answers_status (net O) status) as Hhas by (apply Hst; reflexivity).
    destruct (Z.eqb_spec status AuthStatus.GRANTED) as [->|Hg].
    + split; [tauto|]. split; [intros r [= <-]; reflexivity|].
      split; [intros Hd; apply Huniq in Hd; discriminate|].
      split; [intros s Hs Hng; apply Huniq in Hs; contradiction|discriminate].
    + split; [split; [destruct (status =? AuthStatus.DENIED); discriminate|
                      intros Hgr; apply Huniq in Hgr; congruence]|].
      destruct (Z.eqb_spec status AuthStatus.DENIED) as [->|Hd].
      * split; [discriminate|]. split; [reflexivity|].
        split; [intros s Hs _ Hnd; apply Huniq in Hs; contradiction|discriminate].
      * split; [discriminate|].
        split; [intros Hden; apply Huniq in Hden; congruence|].
        split; [reflexivity|discriminate].
  - assert (forall s, ~ answers_status (net O) s) as Hnone
      by (intros s Hs; apply Hst in Hs; discriminate).
    split; [split; [discriminate|intros Hs; destruct (Hnone _ Hs)]|].
    split; [discriminate|].
    split; [intros Hs; destruct (Hnone _ Hs)|].
    split; [intros s Hs; destruct (Hnone _ Hs)|]. intros e [= <-]. reflexivity.
Qed.

Lemma configure_outcome_witness :
  (value_of (run (AtagOneDriver.configure sample_pairing AtagOneDriver.blank)
               (pair_answers [0]))).1
  = Err AtagOneDriver.PleasePressYes.
Proof.
  destruct (configure_outcome sample_pairing AtagOneDriver.blank (pair_answers [0]))
    as (_ & _ & _ & _ & _ & _ & Hother & _).
  apply (Hother 0).
  - eexists. split; reflexivity.
  - discriminate.
  - discriminate.
Defined.

(** X23. The [list_devices] handler sends nothing and offers one device,
    named "ATAG One 2.0", whose settings are the pairing data as entered
    (IP address, MAC address, device name and e-mail address, each
    unchanged) with a poll interval of 30 seconds.  Its id is the
    normalized MAC address: the MAC address the [configure] handler
    authorized with, and the one a device initialized from the offered
    settings authenticates its requests with. *)
Theorem list_devices_identity
    (this : AtagOneDriver.PairingData) (d : Device) (net net' : Network) :
  exists entry,
    run (AtagOneDriver.list_devices this) net = ([], (Ok [entry], this), net)
    /\ AtagOneDriver.name entry = "ATAG One 2.0"
    /\ AtagOneDriver.settings entry
       = {| Settings.ip_address := AtagOneDriver.ipAddress this;
            Settings.mac_address := AtagOneDriver.macAddress this;
            Settings.device_name := AtagOneDriver.deviceName this;
            Settings.email := AtagOneDriver.email this;
            Settings.poll_interval := 30%Q |}
    /\ Settings.poll_interval (AtagOneDriver.settings entry) = 30%Q
    /\ Settings.ip_address (AtagOneDriver.settings entry) = AtagOneDriver.ipAddress this
    /\ Settings.mac_address (AtagOneDriver.settings entry)
       = AtagOneDriver.macAddress this
    /\ Settings.device_name (AtagOneDriver.settings entry)
       = AtagOneDriver.deviceName this
    /\ Settings.email (AtagOneDriver.settings entry) = AtagOneDriver.email this
    /\ AtagOneDriver.id entry
       = AtagOneApi.normalizeMacAddress (AtagOneDriver.macAddress this)
    /\ AtagOneDriver.id entry
       = mac_address (AtagOneApi.auth_of (pairing_client this))
    /\ AtagOneDriver.id entry
       = mac_address
           (AtagOneApi.auth_of
              (api (value_of (run (onInit (AtagOneDriver.settings entry) d) net')).2)).
Proof.
  eexists. split; [reflexivity|]. cbn.
  do 9 (split; [reflexivity|]).
  rewrite onInit_run, pollData_device, after_poll_api. reflexivity.
Qed.

End Driver.

Section WaitSafety.
Import AtagOneApi.

Lemma waitLoop_safe (intervalMs : Z) (onStatus : bool) (this : ConnectionSettings)
    (n : nat) :
  forall net : Network,
    let out := run (waitLoop n intervalMs onStatus this) net in
    (forall s, (value_of out).1 = Ok s -> terminal s)
    /\ (length (requests_of (trace_of out)) <= n)%nat
    /\ (length (sleeps_of (trace_of out)) <= length (requests_of (trace_of out)))%nat
    /\ (forall s, (value_of out).1 = Ok s ->
          length (sleeps_of (trace_of out)) < length (requests_of (trace_of out)))%nat.
Proof.
  induction n as [|n IH]; intros net; cbv zeta.
  - cbn. split; [discriminate|]. split; [lia|]. split; [lia|discriminate].
  - cbn [waitLoop]. rewrite run_mbind, pair_run_outcome.
    unfold value_of, trace_of. cbn [fst snd].
    destruct (pair_outcome this (net O)) as [status|e]; cbn [fst snd];
      [|cbn; split; [discriminate|]; split; [lia|]; split; [lia|discriminate]].
    rewrite run_mbind.
    assert (run ((if onStatus then perform (OnStatus status) else mret tt) this)
                (next net)
            = ((if onStatus then [Did (OnStatus status)] else []), (Ok tt, this),
               next net)) as -> by (destruct onStatus; reflexivity).
    unfold value_of, trace_of. cbn [fst snd].
    rewrite !requests_of_app, !sleeps_of_app, !length_app.
    assert (requests_of (if onStatus then [Did (OnStatus status)] else []) = []) as ->
      by (destruct onStatus; reflexivity).
    assert (sleeps_of (if onStatus then [Did (OnStatus status)] else []) = []) as ->
      by (destruct onStatus; reflexivity).
    unfold pair_request. cbn [requests_of sleeps_of flat_map app length].
    destruct (Z.eqb_spec status AuthStatus.GRANTED) as [->|Hg].
    { cbn. split; [intros s [= <-]; left; reflexivity|]. repeat split; lia. }
    destruct (Z.eqb_spec status AuthStatus.DENIED) as [->|Hd].
    { cbn. split; [intros s [= <-]; right; reflexivity|]. repeat split; lia. }
    rewrite run_mbind. cbn [perform run value_of trace_of fst snd].
    unfold value_of, trace_of. cbn [fst snd].
    specialize (IH (next net)). cbv zeta in IH. unfold value_of, trace_of in IH.
    destruct IH as (Hterm & Hreq & Hsl & Hlt).
    rewrite !requests_of_app, !sleeps_of_app, !length_app.
    cbn [requests_of sleeps_of flat_map app length].
    split; [exact Hterm|]. split; [lia|]. split; [lia|].
    intros s Hs. specialize (Hlt s Hs). lia.
Qed.

(** X24. Against any thermostat, [waitForAuthorization] returns only a
    GRANTED or a DENIED status, makes at most [maxAttempts] pair calls
    (none when [maxAttempts] is not positive), never sleeps more often
    than it has called, and does not sleep after the call whose status it
    returns. *)
Theorem waitForAuthorization_safe
    (this : ConnectionSettings) (maxAttempts intervalMs : Z) (onStatus : bool)
    (net : Network) :
  let out := run (waitForAuthorization (Some maxAttempts) (Some intervalMs)
                    onStatus this) net in
  (forall s, (value_of out).1 = Ok s -> terminal s)
  /\ (length (requests_of (trace_of out)) <= Z.to_nat maxAttempts)%nat
  /\ (length (sleeps_of (trace_of out)) <= length (requests_of (trace_of out)))%nat
  /\ (forall s, (value_of out).1 = Ok s ->
        length (sleeps_of (trace_of out)) < length (requests_of (trace_of out)))%nat.
Proof.
  cbv zeta. unfold waitForAuthorization, default. cbn [from_option id].
  apply waitLoop_safe.
Qed.

Lemma waitForAuthorization_safe_witness :
  let out := run (waitForAuthorization (Some 4) (Some 10) false sample_settings)
                 (pair_answers [0; 7; 3]) in
  terminal 3
  /\ (length (sleeps_of (trace_of out)) < length (requests_of (trace_of out)))%nat.
Proof.
  cbv zeta.
  destruct (waitForAuthorization_safe sample_settings 4 10 false
              (pair_answers [0; 7; 3])) as (Hterm & _ & _ & Hlt).
  split; [apply Hterm|apply (Hlt 3)]; reflexivity.
Defined.

End WaitSafety.

Section TemperatureCards.

(** X25. In a poll cycle with a successful fetch the cards are triggered in
    the order room temperature, target temperature, pressure, boiler.  The
    [temperature_changed] card is triggered, with the new value, exactly
    when the snapshot carries a room temperature that differs from the
    recorded one, and [target_temperature_changed] likewise for the target
    temperature; with no recorded value, or an equal one, neither is. *)
Theorem temperature_cards_on_change
    (d : Device) (net : Network) (data : ThermostatData) :
  snapshot_of (api d) (net O) = Ok data ->
  exists room target rest,
    triggers_of (trace_of (run (pollData d) net)) = room ++ target ++ rest
    /\ room = match roomTemperature data, prevRoomTemp d with
              | Some v, Some p => if Qeq_bool p v then [] else [temperature_changed v]
              | _, _ => []
              end
    /\ target = match targetTemperature data, prevTargetTemp d with
                | Some v, Some p =>
                    if Qeq_bool p v then [] else [target_temperature_changed v]
                | _, _ => []
                end
    /\ rest = pressure_triggers (prevPressure d) data
                ++ boiler_triggers (prevBoilerHeating d) data.
Proof.
  intros Hs. rewrite pollData_triggers. unfold poll_triggers. rewrite Hs.
  unfold diff_triggers.
  exists (room_triggers (prevRoomTemp d) data),
         (target_triggers (prevTargetTemp d) data),
         (pressure_triggers (prevPressure d) data
            ++ boiler_triggers (prevBoilerHeating d) data).
  split; [reflexivity|].
  unfold room_triggers, target_triggers, differsQ.
  split; [|split; [|reflexivity]].
  - destruct (roomTemperature data) as [v|]; [|reflexivity].
    destruct (prevRoomTemp d) as [p|]; [|reflexivity].
    destruct (Qeq_bool p v); reflexivity.
  - destruct (targetTemperature data) as [v|]; [|reflexivity].
    destruct (prevTargetTemp d) as [p|]; [|reflexivity].
    destruct (Qeq_bool p v); reflexivity.
Qed.

Lemma temperature_cards_on_change_witness :
  let first : Network :=
    fun _ => Ok (retrieve_response (report_reply (room_report (195 # 10) 0))) in
  let second : Network :=
    fun _ => Ok (retrieve_response (report_reply (room_report 20 0))) in
  let d := (value_of (run (pollData (fresh sample_settings ∅)) first)).2 in
  triggers_of (trace_of (run (pollData d) second)) = [temperature_changed 20].
Proof.
  cbv zeta.
  destruct (temperature_cards_on_change
              (value_of (run (pollData (fresh sample_settings ∅))
                           (fun _ => Ok (retrieve_response
                                           (report_reply (room_report (195 # 10) 0)))))).2
              (fun _ => Ok (retrieve_response (report_reply (room_report 20 0))))
              _ eq_refl)
    as (room & target & rest & Ht & Hr & Htar & Hrest).
  rewrite Ht, Hr, Htar, Hrest. reflexivity.
Defined.

End TemperatureCards.

Section DeviceRequests.

Lemma step_requests (w : World) (i : Input) :
  api (device (step w i)) = api (device w)
  /\ exists t,
       history (step w i) = history w ++ t
       /\ Forall (addressed (api (device w))) t
       /\ (length (requests_of t) <= 1)%nat.
Proof.
  assert (forall t, addressed (api (device w)) (update_request (device w) t)) as Hupd
    by (intros t; repeat split).
  assert (forall l, Forall (addressed (api (device w)))
                      (map (fun c => Did (Trigger c)) l)) as Htrig
    by (intros l; apply Forall_forall; intros e He;
        apply list_elem_of_fmap in He as (c & -> & _); exact I).
  destruct i as [|t|t dur|h|].
  - rewrite step_PollTick. cbn [device history]. split; [apply after_poll_api|].
    eexists. split; [reflexivity|]. split.
    + constructor; [repeat split|apply Htrig].
    + unfold retrieve_request. cbn. rewrite requests_of_triggers. cbn. lia.
  - unfold step, handler. rewrite setTemperatureAction_run.
    destruct (update_outcome _); cbn [device history snd];
      (split; [reflexivity|]); eexists; (split; [reflexivity|]);
      (split; [repeat constructor; apply Hupd|cbn; lia]).
  - unfold step, handler. rewrite setTemperatureDurationAction_run.
    destruct (update_outcome _); cbn [device history snd];
      (split; [reflexivity|]); eexists; (split; [reflexivity|]);
      (split; [repeat constructor; apply Hupd|cbn; lia]).
  - unfold step. rewrite TimeoutElapsed_run.
    destruct (timeouts (device w) !! h);
      [destruct (previousTemperature (device w)); [destruct (update_outcome _)|]|];
      cbn [device history snd];
      (split; [reflexivity|]); eexists; (split; [reflexivity|]);
      (split; [repeat constructor; apply Hupd|cbn; lia]).
  - unfold step, handler. rewrite onDeleted_state. cbn [device history snd].
    split; [reflexivity|]. eexists. split; [reflexivity|].
    split; [constructor|cbn; lia].
Qed.

Lemma steps_requests (inputs : list Input) :
  forall (w : World) (this : ConnectionSettings),
    api (device w) = this ->
    Forall (addressed this) (history w) ->
    api (device (steps w inputs)) = this
    /\ Forall (addressed this) (history (steps w inputs))
    /\ (length (requests_of (history (steps w inputs)))
        <= length (requests_of (history w)) + length inputs)%nat.
Proof.
  induction inputs as [|i inputs IH]; intros w this Ha Hf.
  - cbn. split; [assumption|]. split; [assumption|lia].
  - cbn [steps fold_left].
    destruct (step_requests w i) as (Ha' & t & Hh & Ht & Hn).
    destruct (IH (step w i) this) as (Ha2 & Hf2 & Hl2).
    + rewrite Ha'. exact Ha.
    + rewrite Hh. apply Forall_app. split; [assumption|]. rewrite <- Ha. exact Ht.
    + split; [exact Ha2|]. split; [exact Hf2|].
      rewrite Hh, requests_of_app, length_app in Hl2. cbn [length]. 
      unfold steps in *. lia.
Qed.

(** X26. Whatever sequence of polls, actions, elapsed timeouts and
    deletions a new device goes through, its connection settings stay those
    it was constructed with, every request it has sent went to that host
    with those credentials and sequence number 1, and it has sent at most
    one request per input. *)
Theorem device_requests_addressed
    (settings : ConnectionSettings) (store : gmap string capval)
    (net : Network) (inputs : list Input) :
  let w := steps {| device := fresh settings store; network := net; history := [] |}
                 inputs in
  api (device w) = AtagOneApi.constructor settings
  /\ Forall (addressed (AtagOneApi.constructor settings)) (history w)
  /\ (length (requests_of (history w)) <= length inputs)%nat.
Proof.
  cbv zeta.
  destruct (steps_requests inputs
              {| device := fresh settings store; network := net; history := [] |}
              (AtagOneApi.constructor settings) eq_refl (List.Forall_nil _))
    as (Ha & Hf & Hl).
  split; [exact Ha|]. split; [exact Hf|]. cbn in Hl. exact Hl.
Qed.

End DeviceRequests.

(** * The boost timer under interleaving *)

Section Interleaved.
Import Interleaving.


Lemma exec_actionWrite (t : Q) (d : Device) :
  exec (actionWrite t) d
  = with_capabilities (<["target_temperature" := CapNum t]> (capabilities d)) d.
Proof. reflexivity. Qed.

Lemma exec_actionInstall (dur : Q) (d : Device) :
  exec (actionInstall dur) d = installed dur d.
Proof.
  unfold exec, actionInstall, installed, clearTimeout, setTimeout.
  destruct d. prog_simpl. destruct boostTimeout0; reflexivity.
Qed.

Lemma exec_restorationWrite (d : Device) :
  exec restorationWrite d
  = match previousTemperature d with
    | Some previous =>
        with_capabilities (<["target_temperature" := previous]> (capabilities d)) d
    | None => d
    end.
Proof.
  unfold exec, restorationWrite, setCapabilityValue.
  destruct d. prog_simpl. destruct previousTemperature0; reflexivity.
Qed.

Lemma exec_clearTimeout (h : nat) (d : Device) :
  exec (clearTimeout h) d = elapsed h d.
Proof. reflexivity. Qed.








Lemma take_Some_nonempty (i : nat) (l : list (nat * Task)) (x : Task * list (nat * Task)) :
  take i l = Some x -> l <> [].
Proof. destruct l; [discriminate|]. intros _. discriminate. Qed.




(** A pending timeout that elapses runs the restoration: the update request
    goes out with the kept value and the callback is suspended on it. *)
Lemma tick_TimeoutFires (s : System) (h : nat) (v : Q) (previous : capval) :
  timeouts (dev s) !! h = Some v ->
  previousTemperature (dev s) = Some previous ->
  tick s (TimeoutFires h)
  = Some {| dev := elapsed h (dev s);
            tasks := tasks s ++ [(next_task s, RestorationAwaitsUpdate)];
            next_task := S (next_task s);
            sent := sent s ++ [update_request (dev s) (to_number previous)] |}.
Proof.
  intros Hh Hp. cbn [tick]. rewrite Hh. cbv zeta. rewrite exec_clearTimeout.
  change (previousTemperature (elapsed h (dev s))) with (previousTemperature (dev s)).
  rewrite Hp. reflexivity.
Qed.








Lemma ticks_step (s s1 : System) (t : Tick) (rest : list Tick) :
  tick s t = Some s1 -> ticks s (t :: rest) = ticks s1 rest.
Proof. intros Ht. cbn [ticks]. rewrite Ht. reflexivity. Qed.

Lemma tick_StartDurationAction (s : System) (t dur : Q) :
  tick s (StartDurationAction t dur)
  = Some {| dev := with_previousTemperature (Some (target_capability (dev s))) (dev s);
            tasks := tasks s ++ [(next_task s, ActionAwaitsUpdate t dur)];
            next_task := S (next_task s);
            sent := sent s ++ [update_request (dev s) t] |}.
Proof. reflexivity. Qed.





Lemma take_here (n : nat) (t : Task) (l : list (nat * Task)) :
  take n ((n, t) :: l) = Some (t, l).
Proof. cbn [take]. rewrite Nat.eqb_refl. reflexivity. Qed.


Lemma scheduled_segments (t dur : Q) (d : Device) :
  installed dur
    (with_capabilities (<["target_temperature" := CapNum t]> (capabilities d))
       (with_previousTemperature (Some (target_capability d)) d))
  = scheduled t dur d.
Proof. reflexivity. Qed.

(** Handlers that nothing interrupts do what the handlers run whole do:
    the segments of the action compose to [setTemperatureDurationAction],
    those of the callback to the handler of an elapsed timeout. *)
Lemma uninterrupted_action (t dur : Q) (d : Device) (n : nat) (se : list Event)
    (answer : result Response) :
  let out := run (setTemperatureDurationAction t dur d) (fun _ => answer) in
  ticks {| dev := d; tasks := []; next_task := n; sent := se |}
        (StartDurationAction t dur
           :: UpdateAnswered n answer
           :: (if is_ok (update_outcome answer) then [CapabilityWritten n] else []))
  = Some {| dev := (value_of out).2; tasks := []; next_task := S n;
            sent := se ++ trace_of out |}.
Proof.
  cbv zeta. rewrite setTemperatureDurationAction_run. unfold value_of, trace_of.
  cbn [fst snd].
  rewrite (ticks_step _ _ _ _ (tick_StartDurationAction _ t dur)).
  cbn [dev tasks next_task sent app ticks tick]. rewrite take_here.
  destruct (update_outcome answer); cbn [is_ok snd ticks tick dev tasks next_task sent app].
  - rewrite take_here, exec_actionWrite, exec_actionInstall. reflexivity.
  - reflexivity.
Qed.

Lemma uninterrupted_restoration (h : nat) (v : Q) (previous : capval) (d : Device)
    (n : nat) (se : list Event) (answer : result Response) :
  timeouts d !! h = Some v ->
  previousTemperature d = Some previous ->
  let out := run (handler (TimeoutElapsed h) d) (fun _ => answer) in
  ticks {| dev := d; tasks := []; next_task := n; sent := se |}
        [TimeoutFires h; UpdateAnswered n answer]
  = Some {| dev := (value_of out).2; tasks := []; next_task := S n;
            sent := se ++ trace_of out |}.
Proof.
  intros Hh Hp. cbv zeta. rewrite TimeoutElapsed_run, Hh, Hp.
  unfold value_of, trace_of. cbn [fst snd].
  erewrite ticks_step; [|apply (tick_TimeoutFires _ h v previous); assumption].
  cbn [dev tasks next_task sent app ticks tick]. rewrite take_here.
  destruct (update_outcome answer); cbn [snd]; [|reflexivity].
  rewrite exec_restorationWrite.
  change (previousTemperature (elapsed h d)) with (previousTemperature d).
  rewrite Hp. reflexivity.
Qed.












End Interleaved.
